(** * sword-converter: the [query.py] lookup and search tool

    A shallow embedding of [query.py]: the key parser ([split_key] and its
    three regular expressions), the keyword filter, the two backend
    adapters, the renderer and the two click commands, followed by the
    properties of the program that the specification states.

    Conventions.
    - A Python [str] is a [string]; one [ascii] stands for one code point
      below 256, so [\d] is the ten decimal digits and the white space of
      [str.split] is the Latin-1 white space.
    - Python integers are [Z]; [int] and [str] convert at most
      [max_str_digits] digits (CPython 3.11 and later, by default), and
      SQLite binds the integers of 64 bits.
    - A function that can raise returns an [outcome].
    - The records of a file are a list: for a [json] file the array in
      the order of the file, for a [sqlite] file the [verses] relation in
      the order in which the store returns its rows (no statement of the
      program has an [ORDER BY]).
    - A path does not exist, or it exists and an adapter that reads it
      finds records there; the integers of these records are within the
      limits above ([json.load] and SQLite deliver no others). *)

From Stdlib Require Import Ascii String List ZArith Lia Bool Permutation.
From Stdlib Require Import DecimalString DecimalPos.
From Stdlib Require DecimalN DecimalFacts.
Import ListNotations.

Local Open Scope list_scope.
Local Open Scope string_scope.

Set Implicit Arguments.

(* ================================================================== *)
(** * Outcomes *)
(* ================================================================== *)

Inductive exn : Type :=
| TypeError                   (* unpacking [None] into three names *)
| ValueError                  (* [int] refuses the string *)
| UnboundLocalError           (* a [NameError]: a local read before it is bound *)
| ReError                     (* [re.error]: the pattern does not compile *)
| OverflowError               (* [sqlite3]: an [int] too large to bind *)
| OperationalError            (* [sqlite3.OperationalError] *)
| BadParameter (param : string) (* [click.BadParameter], a usage error *)
| UsageError (msg : string).  (* [click.UsageError] *)

(** What a call does: it returns, it raises, or it leaves the part of the
    libraries that this development gives a meaning to. *)
Inductive outcome (A : Type) : Type :=
| Ok (a : A)
| Raise (e : exn)
| Beyond.

Arguments Ok {A} a.
Arguments Raise {A} e.
Arguments Beyond {A}.

Definition bind {A B : Type} (x : outcome A) (k : A -> outcome B)
  : outcome B :=
  match x with
  | Ok a => k a
  | Raise e => Raise e
  | Beyond => Beyond
  end.

Notation "x <- e ;; k" := (bind e (fun x => k))
  (at level 61, e at next level, right associativity).

(* ================================================================== *)
(** * Python strings *)
(* ================================================================== *)

Module PyStr.

Definition code (c : ascii) : N := N_of_ascii c.

(** [str.isspace] on one code point below 256. *)
Definition isspace (c : ascii) : bool :=
  let n := code c in
  ((9 <=? n) && (n <=? 13) || (28 <=? n) && (n <=? 32)
   || (n =? 133) || (n =? 160))%N.

(** [\d] (and [str.isdigit] for [int]) on one code point below 256. *)
Definition isdigit (c : ascii) : bool :=
  let n := code c in ((48 <=? n) && (n <=? 57))%N.

Fixpoint all (p : ascii -> bool) (s : string) : bool :=
  match s with
  | EmptyString => true
  | String c s' => p c && all p s'
  end.

(** The first character of [s] satisfies [p] ([false] on the empty
    string). *)
Definition starts (p : ascii -> bool) (s : string) : bool :=
  match s with
  | EmptyString => false
  | String c _ => p c
  end.

Definition is_empty (s : string) : bool :=
  match s with EmptyString => true | _ => false end.

(** [s.startswith(pre)]. *)
Definition startswith (s pre : string) : bool := String.prefix pre s.

(** [s.endswith(suf)]: some tail of [s] is [suf]. *)
Fixpoint endswith (s suf : string) : bool :=
  (s =? suf)%string
  || match s with
     | EmptyString => false
     | String _ s' => endswith s' suf
     end.

(** [sub in s]. *)
Fixpoint contains (sub s : string) : bool :=
  String.prefix sub s
  || match s with
     | EmptyString => false
     | String _ s' => contains sub s'
     end.

(** [s.split()]: the maximal runs of characters that are not white
    space.  [cur] is the run being read. *)
Fixpoint split_from (cur : string) (s : string) : list string :=
  match s with
  | EmptyString => if is_empty cur then [] else [cur]
  | String c s' =>
      if isspace c
      then (if is_empty cur then split_from "" s'
            else cur :: split_from "" s')
      else split_from (cur ++ String c "") s'
  end.

Definition split (s : string) : list string := split_from "" s.

(** [sep.join(l)]. *)
Definition join (sep : string) (l : list string) : string :=
  String.concat sep l.

(** [s[1:]] *)
Definition tail (s : string) : string :=
  match s with
  | EmptyString => EmptyString
  | String _ s' => s'
  end.

(** [s * n] *)
Fixpoint mul (s : string) (n : nat) : string :=
  match n with
  | O => EmptyString
  | S n' => s ++ mul s n'
  end.

(** The number that a string of decimal digits writes. *)
Definition digit_val (c : ascii) : Z := Z.of_N (code c) - 48.

Fixpoint int_from (acc : Z) (s : string) : Z :=
  match s with
  | EmptyString => acc
  | String c s' => int_from (10 * acc + digit_val c) s'
  end.

Definition value (s : string) : Z := int_from 0 s.

(** [sys.int_info.default_max_str_digits]: CPython converts no more
    digits than these between [str] and [int]. *)
Definition max_str_digits : nat := 4300.

(** [int(s)].  The empty string is refused, and so is a string of more
    than [max_str_digits] digits, leading zeros counted; strings with
    other characters are not given a meaning. *)
Definition int (s : string) : outcome Z :=
  if is_empty s then Raise ValueError
  else if negb (all isdigit s) then Beyond
  else if (String.length s <=? max_str_digits)%nat then Ok (value s)
  else Raise ValueError.

(** [str(n)] / ["%s" % n] for an integer. *)
Definition of_int (n : Z) : string := NilEmpty.string_of_int (Z.to_int n).

End PyStr.

(* ================================================================== *)
(** * The fragment of [re] used by the key patterns *)
(* ================================================================== *)

Module Re.

(** Syntax: what the three key patterns are built from. *)
Inductive regex : Type :=
| Chr (c : ascii)                   (* a literal character *)
| Plus (cls : ascii -> bool)        (* [cls+], greedy *)
| Group (i : nat) (r : regex)       (* the capturing group number [i] *)
| Seq (r1 r2 : regex).              (* [r1] followed by [r2] *)

(** A match object: the text of each group that took part. *)
Definition match_obj : Type := list (nat * string).

Fixpoint group (m : match_obj) (i : nat) : string :=
  match m with
  | [] => ""
  | (j, w) :: m' => if Nat.eqb i j then w else group m' i
  end.

Section Backtracking.
Variable A : Type.

(** The continuation receives the text consumed, the rest of the
    subject and the groups closed so far. *)
Definition cont : Type := string -> string -> match_obj -> option A.

(** Greedy repetition: having consumed [acc], take one more character
    of the class when there is one and resume; when everything after
    that fails, stop here. *)
Fixpoint star (cls : ascii -> bool) (acc s : string)
         (k : string -> string -> option A) : option A :=
  match s with
  | String c s' =>
      if cls c
      then match star cls (acc ++ String c "") s' k with
           | Some r => Some r
           | None => k acc s
           end
      else k acc s
  | EmptyString => k acc s
  end.

Definition plus (cls : ascii -> bool) (s : string)
           (k : string -> string -> option A) : option A :=
  match s with
  | String c s' => if cls c then star cls (String c "") s' k else None
  | EmptyString => None
  end.

Fixpoint run (r : regex) (s : string) (m : match_obj) (k : cont)
  : option A :=
  match r with
  | Chr c =>
      match s with
      | String c' s' =>
          if Ascii.eqb c c' then k (String c "") s' m else None
      | EmptyString => None
      end
  | Plus cls => plus cls s (fun w rest => k w rest m)
  | Group i r' => run r' s m (fun w rest m' => k w rest ((i, w) :: m'))
  | Seq r1 r2 =>
      run r1 s m (fun w1 rest1 m1 =>
        run r2 rest1 m1 (fun w2 rest2 m2 => k (w1 ++ w2) rest2 m2))
  end.
End Backtracking.

(** [pattern.match(s)]: anchored at the start of [s], not at its end. *)
Definition re_match (r : regex) (s : string) : option match_obj :=
  run r s [] (fun _ _ m => Some m).

(** The words of a pattern, with the groups they close: [matches r w m
    m'] when [r] can consume [w] and turns the groups [m] into [m']. *)
Fixpoint matches (r : regex) (w : string) (m m' : match_obj) : Prop :=
  match r with
  | Chr c => w = String c "" /\ m' = m
  | Plus cls => w <> "" /\ PyStr.all cls w = true /\ m' = m
  | Group i r' => exists m1, matches r' w m m1 /\ m' = (i, w) :: m1
  | Seq r1 r2 =>
      exists w1 w2 m1,
        w = w1 ++ w2 /\ matches r1 w1 m m1 /\ matches r2 w2 m1 m'
  end.

End Re.

(* ================================================================== *)
(** * Constants *)
(* ================================================================== *)

Definition not_colon (c : ascii) : bool := negb (Ascii.eqb c ":").
Definition is_blank (c : ascii) : bool := Ascii.eqb c " ".

(** [KEY_BOOK_CHAPTER_VERSE_REGEXP = re.compile(r"([^:]+) +(\d+):(\d+)")] *)
Definition KEY_BOOK_CHAPTER_VERSE_REGEXP : Re.regex :=
  Re.Seq (Re.Group 1 (Re.Plus not_colon))
    (Re.Seq (Re.Plus is_blank)
       (Re.Seq (Re.Group 2 (Re.Plus PyStr.isdigit))
          (Re.Seq (Re.Chr ":") (Re.Group 3 (Re.Plus PyStr.isdigit))))).

(** [KEY_BOOK_CHAPTER_REGEXP = re.compile(r"([^:]+) +(\d+)")] *)
Definition KEY_BOOK_CHAPTER_REGEXP : Re.regex :=
  Re.Seq (Re.Group 1 (Re.Plus not_colon))
    (Re.Seq (Re.Plus is_blank) (Re.Group 2 (Re.Plus PyStr.isdigit))).

(** [KEY_BOOK_REGEXP = re.compile(r"([^:]+)")] *)
Definition KEY_BOOK_REGEXP : Re.regex := Re.Group 1 (Re.Plus not_colon).

(** [FTS_OPERATORS = {"AND", "OR", "NOT"}] *)
Definition FTS_OPERATORS : list string := ["AND"; "OR"; "NOT"].

(* ================================================================== *)
(** * Key parser *)
(* ================================================================== *)

(** [split_key(key)]; [Ok None] is the Python [None] that the function
    returns when it falls off its end.  The tuple is built from the left:
    [int] of the chapter group runs before [int] of the verse group. *)
Definition split_key (key : string)
  : outcome (option (string * option Z * option Z)) :=
  match Re.re_match KEY_BOOK_CHAPTER_VERSE_REGEXP key with
  | Some m =>
      c <- PyStr.int (Re.group m 2) ;;
      v <- PyStr.int (Re.group m 3) ;;
      Ok (Some (Re.group m 1, Some c, Some v))
  | None =>
      match Re.re_match KEY_BOOK_CHAPTER_REGEXP key with
      | Some m =>
          c <- PyStr.int (Re.group m 2) ;;
          Ok (Some (Re.group m 1, Some c, None))
      | None =>
          match Re.re_match KEY_BOOK_REGEXP key with
          | Some m => Ok (Some (Re.group m 1, None, None))
          | None => Ok None
          end
      end
  end.

(** Some blank of [s] is directly followed by a decimal digit. *)
Fixpoint blank_digit (s : string) : bool :=
  match s with
  | EmptyString => false
  | String c s' =>
      (is_blank c && PyStr.starts PyStr.isdigit s') || blank_digit s'
  end.

(* ================================================================== *)
(** * Records, output *)
(* ================================================================== *)

(** One verse as both backends deliver it: [row['book']], [row['chapter']],
    [row['verse']], [row['text']]. *)
Record VerseRecord : Type := {
  book : string;
  chapter : Z;
  verse : Z;
  text : string
}.

#[local] Unset Elimination Schemes.
Inductive json : Type :=
| JStr (s : string)
| JInt (n : Z)
| JObj (fields : list (string * json))   (* an [OrderedDict] *)
| JArr (items : list json).
#[local] Set Elimination Schemes.

(** What the program writes. *)
Inductive event : Type :=
| Secho (msg : string) (bold nl color : bool)  (* [click.secho] *)
| Echo (msg : string)                          (* [click.echo] *)
| PrintJson (doc : json) (indent : Z).         (* [print(json.dumps(..))] *)

(** A command: what it wrote, and how it ended. *)
Definition io : Type := (list event * outcome unit)%type.

(** Exit status of the process: 0 after a normal return, click's 2 for a
    [UsageError] and for a [BadParameter], Python's 1 for any other
    exception that nobody handles. *)
Definition exit_status (fin : outcome unit) : option Z :=
  match fin with
  | Ok _ => Some 0%Z
  | Raise (UsageError _) => Some 2%Z
  | Raise (BadParameter _) => Some 2%Z
  | Raise _ => Some 1%Z
  | Beyond => None
  end.

(** [NameError] and its subclasses. *)
Definition is_name_error (e : exn) : bool :=
  match e with UnboundLocalError => true | _ => false end.

(** Truth value of an [int] or [None], of a [str] and of a list. *)
Definition truthy_int (x : option Z) : bool :=
  match x with
  | Some n => negb (n =? 0)%Z
  | None => false
  end.

Definition truthy_str (s : string) : bool := negb (PyStr.is_empty s).

Definition truthy_list {A : Type} (l : list A) : bool :=
  match l with [] => false | _ :: _ => true end.

(** [field == x] where [field] is an integer and [x] an [int] or [None]. *)
Definition int_eq (field : Z) (x : option Z) : bool :=
  match x with
  | Some n => (field =? n)%Z
  | None => false
  end.

(* ================================================================== *)
(** * Backend adapters *)
(* ================================================================== *)

(** [lookup_json(filename, key)], with [verses] the array stored in the
    file. *)
Definition lookup_json (verses : list VerseRecord) (key : string)
  : outcome (list VerseRecord) :=
  parsed <- split_key key ;;
  match parsed with
  | None => Raise TypeError
  | Some (book_, chapter_, verse_) =>
      if truthy_int verse_ then
        Ok (filter (fun v => (book v =? book_)%string
                             && int_eq (chapter v) chapter_
                             && int_eq (verse v) verse_) verses)
      else if truthy_int chapter_ then
        Ok (filter (fun v => (book v =? book_)%string
                             && int_eq (chapter v) chapter_) verses)
      else
        Ok (filter (fun v => (book v =? book_)%string) verses)
  end.

(** An [int] can be bound to a parameter of a statement when it is an
    SQLite INTEGER, 64 bits with a sign; [None] is bound as NULL. *)
Definition binds (x : option Z) : bool :=
  match x with
  | Some n => ((- 2 ^ 63 <=? n) && (n <? 2 ^ 63))%Z
  | None => true
  end.

(** The three [SELECT] statements over the [verses] relation.  They have
    no [ORDER BY]: [rows] is the relation in the order in which the store
    scans it, and that is the order of the result. *)
Definition SELECT_BOOK (book_ : string) (rows : list VerseRecord) :=
  filter (fun v => (book v =? book_)%string) rows.

Definition SELECT_CHAPTER (book_ : string) (chapter_ : option Z)
           (rows : list VerseRecord) :=
  filter (fun v => (book v =? book_)%string && int_eq (chapter v) chapter_)
         rows.

Definition SELECT_VERSE (book_ : string) (chapter_ verse_ : option Z)
           (rows : list VerseRecord) :=
  filter (fun v => (book v =? book_)%string && int_eq (chapter v) chapter_
                   && int_eq (verse v) verse_) rows.

(** [lookup_sqlite(filename, key)], with [rows] the [verses] relation of
    the database.  [execute] raises [OverflowError] when a parameter
    cannot be bound.  A cursor on which nothing was executed fetches no
    row. *)
Definition lookup_sqlite (rows : list VerseRecord) (key : string)
  : outcome (list VerseRecord) :=
  parsed <- split_key key ;;
  match parsed with
  | None => Raise TypeError
  | Some (book_, chapter_, verse_) =>
      if truthy_int verse_ then
        if binds chapter_ && binds verse_
        then Ok (SELECT_VERSE book_ chapter_ verse_ rows)
        else Raise OverflowError
      else if truthy_int chapter_ then
        if binds chapter_ then Ok (SELECT_CHAPTER book_ chapter_ rows)
        else Raise OverflowError
      else if truthy_str book_ then Ok (SELECT_BOOK book_ rows)
      else Ok []
  end.

(** The inner loop of [search_json]: [found] stays [True] until a key is
    missing from the text, and the loop stops there. *)
Fixpoint found_all (query : list string) (txt : string) : bool :=
  match query with
  | [] => true
  | key :: query' =>
      if negb (PyStr.contains key txt) then false else found_all query' txt
  end.

(** [search_json(filename, query)]. *)
Definition search_json (verses : list VerseRecord) (query : string)
  : list VerseRecord :=
  let query := PyStr.split query in
  fold_left (fun result v =>
               if found_all query (text v) then (result ++ [v])%list
               else result)
            verses [].

(** The specification's reading of "splits the query on whitespace",
    stated without [split]: the tokens of a query are its maximal runs of
    characters that are not white space.  [leading_token s k]: [k] is
    such a run at the head of [s], ended by white space or by the end of
    [s]. *)
Definition leading_token (s k : string) : Prop :=
  k <> "" /\ PyStr.all (fun c => negb (PyStr.isspace c)) k = true
  /\ exists post, s = k ++ post
                  /\ (post = "" \/ PyStr.starts PyStr.isspace post = true).

(** [token_of query k]: [k] is a run that begins the query or follows a
    white-space character of it. *)
Definition token_of (query k : string) : Prop :=
  leading_token query k
  \/ exists pre c rest, query = pre ++ String c rest
                        /\ PyStr.isspace c = true /\ leading_token rest k.

(** [search_sqlite(filename, key)]: the [MATCH] operator of the full-text
    index is the store's own, [fts]. *)
Definition search_sqlite
           (fts : string -> list VerseRecord -> outcome (list VerseRecord))
           (rows : list VerseRecord) (key : string)
  : outcome (list VerseRecord) :=
  fts key rows.

(* ================================================================== *)
(** * Keyword filter *)
(* ================================================================== *)

Definition mem (x : string) (l : list string) : bool :=
  existsb (String.eqb x) l.

(** The distinct elements of a list in the order of their first
    occurrence: what is inserted into a fresh set. *)
Fixpoint insert_all (tbl l : list string) : list string :=
  match l with
  | [] => tbl
  | x :: l' => insert_all (if mem x tbl then tbl else (tbl ++ [x])%list) l'
  end.

(** A Python [set] of strings is given by the order in which it is
    iterated.  That order is fixed by the hash table: [arrange l] is the
    iteration order of the set into which the distinct strings [l] were
    inserted in that order. *)
Section Sets.
Variable arrange : list string -> list string.

(** [set(l)] *)
Definition pyset (l : list string) : list string :=
  arrange (insert_all [] l).

(** [s.difference(other)]: a new set of the elements of [s] that are
    not in [other]. *)
Definition difference (s other : list string) : list string :=
  arrange (filter (fun x => negb (mem x other)) s).

(** [filter_keywords(keywords)] *)
Definition filter_keywords (keywords : list string) : list string :=
  let keywords := pyset keywords in
  let keywords := difference keywords FTS_OPERATORS in
  filter (fun word => negb (PyStr.startswith word "-")) keywords.
End Sets.

(** A token survives when it is no operator and does not begin with the
    negation marker. *)
Definition survives (word : string) : bool :=
  negb (mem word FTS_OPERATORS) && negb (PyStr.startswith word "-").

(** A hash order is lawful when it only rearranges. *)
Definition lawful (arrange : list string -> list string) : Prop :=
  forall l, Permutation (arrange l) l.

(** Two hash orders: slots follow insertion, and slots follow a hash
    value ([by_hash h] is an insertion sort on [h]). *)
Definition insertion_order (l : list string) : list string := l.

Fixpoint slot_insert (h : string -> N) (x : string) (l : list string)
  : list string :=
  match l with
  | [] => [x]
  | y :: l' => if (h x <=? h y)%N then x :: l else y :: slot_insert h x l'
  end.

Fixpoint by_hash (h : string -> N) (l : list string) : list string :=
  match l with
  | [] => []
  | x :: l' => slot_insert h x (by_hash h l')
  end.

(** A hash for the examples: the first code point, in a table of eight
    slots. *)
Definition first_code_mod8 (s : string) : N :=
  match s with
  | EmptyString => 0%N
  | String c _ => (PyStr.code c mod 8)%N
  end.

(* ================================================================== *)
(** * Renderer *)
(* ================================================================== *)

(** The two capabilities of the [blessings] terminal that are used. *)
Record Terminal : Type := {
  red : string;      (* [TERM.red] *)
  normal : string    (* [TERM.normal] *)
}.

Definition ESC : ascii := ascii_of_nat 27.

(** The sequences of an xterm; both are empty when the output is not a
    terminal. *)
Definition xterm : Terminal :=
  {| red := String ESC "[31m"; normal := String ESC ("(B" ++ String ESC "[m") |}.

Definition no_tty : Terminal := {| red := ""; normal := "" |}.

(** The markers hold no backslash. *)
Definition plain_markers (T : Terminal) : Prop :=
  PyStr.contains "\" (red T) = false /\ PyStr.contains "\" (normal T) = false.

(** [re.IGNORECASE] *)
Definition IGNORECASE : Z := 2.

Module Sub.

(** The characters that [re] does not read as themselves. *)
Definition special (c : ascii) : bool :=
  PyStr.contains (String c "") ".^$*+?{}[]\|()".

Definition repeat_char (c : ascii) : bool :=
  PyStr.contains (String c "") "*+?".

Definition literal (pattern : string) : bool :=
  PyStr.all (fun c => negb (special c)) pattern.

(** Compiling a pattern.  A pattern that begins with a repetition
    operator has nothing to repeat and is rejected; a pattern without
    special characters matches itself; the other patterns are not
    given a meaning here. *)
Definition compile (pattern : string) : outcome string :=
  if PyStr.starts repeat_char pattern then Raise ReError
  else if literal pattern then Ok pattern
  else Beyond.

(** [count = 0] replaces every match, a positive [count] at most that
    many; [n] matches were replaced so far. *)
Definition may_replace (count n : Z) : bool :=
  (count =? 0)%Z || (n <? count)%Z.

(** Left to right over the subject; [skip] characters of the match just
    replaced are still to be passed over. *)
Fixpoint scan (w : string) (repl : string -> string) (count n : Z)
         (skip : nat) (s : string) : string :=
  match s with
  | EmptyString =>
      match skip with
      | O => if may_replace count n && PyStr.is_empty w then repl ""
             else ""
      | S _ => ""
      end
  | String c s' =>
      match skip with
      | S skip' => scan w repl count n skip' s'
      | O =>
          if may_replace count n && String.prefix w s
          then if PyStr.is_empty w
               then repl "" ++ String c (scan w repl count (n + 1) 0 s')
               else repl w ++ scan w repl count (n + 1)
                                   (String.length w - 1) s'
          else String c (scan w repl count n 0 s')
      end
  end.

(** [re.sub(pattern, before + r"\g<0>" + after, s, count)], the flags
    left at their default: matching is case-sensitive.  A backslash in
    [before] or [after] would be read by the template parser. *)
Definition re_sub (pattern before after s : string) (count : Z)
  : outcome string :=
  match compile pattern with
  | Ok w =>
      if PyStr.contains "\" before || PyStr.contains "\" after then Beyond
      else Ok (scan w (fun m => before ++ m ++ after) count 0 0 s)
  | Raise e => Raise e
  | Beyond => Beyond
  end.

End Sub.

(** [colorize_matches(s, keywords)]: the fourth positional argument of
    [re.sub] is [count]. *)
Fixpoint colorize_matches (T : Terminal) (s : string)
         (keywords : list string) : outcome string :=
  match keywords with
  | [] => Ok s
  | keyword :: keywords' =>
      match Sub.re_sub keyword (red T) (normal T) s IGNORECASE with
      | Ok s' => colorize_matches T s' keywords'
      | Raise e => Raise e
      | Beyond => Beyond
      end
  end.

Definition truthy_keywords (keywords : option (list string)) : bool :=
  match keywords with
  | Some l => truthy_list l
  | None => false
  end.

Definition keywords_list (keywords : option (list string)) : list string :=
  match keywords with Some l => l | None => [] end.

(** The heading of a row: ["%s %s:%s: " % (book, chapter, verse)]. *)
Definition heading (row : VerseRecord) : string :=
  book row ++ " " ++ PyStr.of_int (chapter row) ++ ":"
  ++ PyStr.of_int (verse row) ++ ": ".

(** The loop of [render_plain]. *)
Fixpoint render_rows (T : Terminal) (keywords : option (list string))
         (color : bool) (rows : list VerseRecord) : io :=
  match rows with
  | [] => ([], Ok tt)
  | row :: rows' =>
      match (if truthy_keywords keywords
             then colorize_matches T (text row) (keywords_list keywords)
             else Ok (text row)) with
      | Ok txt =>
          let (out, fin) := render_rows T keywords color rows' in
          (Secho (heading row) true false color :: Echo txt :: out, fin)
      | Raise e => ([], Raise e)
      | Beyond => ([], Beyond)
      end
  end.

(** [render_plain(rows, keywords=None, color=True)] *)
Definition render_plain (arrange : list string -> list string)
           (T : Terminal) (rows : list VerseRecord)
           (keywords : option (list string)) (color : bool) : io :=
  let keywords :=
    if truthy_keywords keywords
    then Some (filter_keywords arrange (keywords_list keywords))
    else keywords in
  render_rows T keywords color rows.

(** [row_to_dict(row)] *)
Definition row_to_dict (row : VerseRecord) : json :=
  JObj [("book", JStr (book row)); ("chapter", JInt (chapter row));
        ("verse", JInt (verse row)); ("text", JStr (text row))].

(** [render_json(rows)] *)
Definition render_json (rows : list VerseRecord) : io :=
  ([PrintJson (JArr (map row_to_dict rows)) 2], Ok tt).

(* ================================================================== *)
(** * Commands *)
(* ================================================================== *)

(** What the process finds around it. *)
Record World : Type := {
  fs : string -> option (list VerseRecord);
    (* [None] when no such path exists; [Some verses] when the path
       exists, [verses] being what an adapter reads from it *)
  fts : string -> list VerseRecord -> outcome (list VerseRecord);
    (* the full-text [MATCH] of the SQLite build *)
  hash_order : list string -> list string;
    (* iteration order of a set under the hash seed of the process *)
  term : Terminal
}.

(** [@click.argument('filename', type=click.Path(exists=True))]: click
    refuses a path that does not exist before the command runs. *)
Definition existing_path (w : World) (filename : string)
           (command : list VerseRecord -> io) : io :=
  match fs w filename with
  | Some verses => command verses
  | None => ([], Raise (BadParameter "filename"))
  end.

(** The end of both commands: [if result: ... else: raise
    click.UsageError(..)].  [result] is [None] when neither branch of the
    backend selection bound the name. *)
Definition finish (result : option (outcome (list VerseRecord)))
           (render : list VerseRecord -> io) (not_found : string) : io :=
  match result with
  | None => ([], Raise UnboundLocalError)
  | Some (Raise e) => ([], Raise e)
  | Some Beyond => ([], Beyond)
  | Some (Ok rows) =>
      if truthy_list rows then render rows
      else ([], Raise (UsageError not_found))
  end.

(** The rendering block that both commands end with: [if output ==
    'plain': render_plain(..) elif output == 'json': render_json(..)]. *)
Definition render_per_output (w : World) (output : string)
           (keywords : option (list string)) (result : list VerseRecord)
  : io :=
  if (output =? "plain")%string
  then render_plain (hash_order w) (term w) result keywords true
  else if (output =? "json")%string then render_json result
  else ([], Ok tt).

(** [lookup(filename, key, output)] *)
Definition lookup (w : World) (filename key output : string) : io :=
  existing_path w filename (fun verses =>
    let result :=
      if PyStr.endswith filename "json"
      then Some (lookup_json verses key)
      else if PyStr.endswith filename "sqlite"
      then Some (lookup_sqlite verses key)
      else None in
    finish result (render_per_output w output None) (key ++ " not found")).

(** [search(filename, keywords, output)] *)
Definition search (w : World) (filename : string) (keywords : list string)
           (output : string) : io :=
  existing_path w filename (fun verses =>
    let query := PyStr.join " " keywords in
    let keywords := filter_keywords (hash_order w) (PyStr.split query) in
    let result :=
      if PyStr.endswith filename "json"
      then Some (Ok (search_json verses query))
      else if PyStr.endswith filename "sqlite"
      then Some (search_sqlite (fts w) verses query)
      else None in
    finish result (render_per_output w output (Some keywords))
           ("No matches found for: " ++ query)).

(** The levels of the [logging] module. *)
Definition DEBUG : Z := 10.
Definition INFO : Z := 20.
Definition WARNING : Z := 30.

(** What [log.basicConfig] is called with. *)
Record LogConfig : Type := {
  level : Z;
  format : string
}.

(** [cli(verbose)], with [verbose] the number of [-v] flags. *)
Definition cli (verbose : Z) : LogConfig :=
  let LOG_LEVEL :=
    if (verbose >=? 2)%Z then DEBUG
    else if (verbose =? 1)%Z then INFO
    else WARNING in
  {| level := LOG_LEVEL; format := "%(levelname)s: %(message)s" |}.

(** Book, chapter and verse identify a record of the source. *)
Definition unique_keys (verses : list VerseRecord) : Prop :=
  NoDup (map (fun r => (book r, chapter r, verse r)) verses).

Fixpoint last_char (s : string) : option ascii :=
  match s with
  | EmptyString => None
  | String c EmptyString => Some c
  | String _ s' => last_char s'
  end.

(* ================================================================== *)
(** * Sample data *)
(* ================================================================== *)

Module Sample.

Definition genesis_1_1 : VerseRecord :=
  {| book := "Genesis"; chapter := 1; verse := 1;
     text := "In the beginning God created the heaven and the earth." |}.

Definition genesis_1_2 : VerseRecord :=
  {| book := "Genesis"; chapter := 1; verse := 2;
     text := "And the earth was without form, and void; and darkness was upon the face of the deep." |}.

Definition genesis_1_16 : VerseRecord :=
  {| book := "Genesis"; chapter := 1; verse := 16;
     text := "And God made two great lights; the greater light to rule the day, and the lesser light to rule the night: he made the stars also." |}.

Definition genesis_3_9 : VerseRecord :=
  {| book := "Genesis"; chapter := 3; verse := 9;
     text := "And the LORD God called unto Adam, and said unto him, Where art thou?" |}.

Definition psalms_97_11 : VerseRecord :=
  {| book := "Psalms"; chapter := 97; verse := 11;
     text := "Light is sown for the righteous, and gladness for the upright in heart." |}.

(** A process whose sets iterate in insertion order, on an xterm, with
    every path existing and holding [verses], and a full-text index that
    matches nothing. *)
Definition world (verses : list VerseRecord) : World :=
  {| fs := fun _ => Some verses;
     fts := fun _ _ => Ok [];
     hash_order := insertion_order;
     term := xterm |}.

(** The same process in a directory without any file. *)
Definition empty_directory : World :=
  {| fs := fun _ => None;
     fts := fun _ _ => Ok [];
     hash_order := insertion_order;
     term := xterm |}.

End Sample.

(* ================================================================== *)
(** * Facts about strings *)
(* ================================================================== *)

Unset Implicit Arguments.

Lemma sapp_assoc (a b c : string) : (a ++ b) ++ c = a ++ (b ++ c).
Proof. induction a as [|x a IH]; simpl; [reflexivity | now rewrite IH]. Qed.

Lemma sapp_nil_r (a : string) : a ++ "" = a.
Proof. induction a as [|x a IH]; simpl; [reflexivity | now rewrite IH]. Qed.

Lemma sapp_eq_nil (a b : string) : a ++ b = "" -> a = "" /\ b = "".
Proof. destruct a; simpl; [auto | discriminate]. Qed.

Lemma sapp_length (a b : string) :
  String.length (a ++ b) = String.length a + String.length b.
Proof. induction a as [|x a IH]; simpl; [reflexivity | now rewrite IH]. Qed.

Lemma sapp_inv_head (a b c : string) : a ++ b = a ++ c -> b = c.
Proof.
  induction a as [|x a IH]; simpl; intros H; [exact H |].
  injection H as H. auto.
Qed.

Lemma all_app (p : ascii -> bool) (a b : string) :
  PyStr.all p (a ++ b) = PyStr.all p a && PyStr.all p b.
Proof.
  induction a as [|x a IH]; simpl; [reflexivity |].
  now rewrite IH, andb_assoc.
Qed.

Lemma prefix_iff (p s : string) :
  String.prefix p s = true <-> exists t, s = p ++ t.
Proof.
  revert s. induction p as [|x p IH]; intros s; simpl.
  - split; [intros _; now exists s | now destruct s].
  - destruct s as [|y s].
    + split; [discriminate | intros [t Ht]; discriminate].
    + simpl. destruct (ascii_dec x y) as [->|Hne].
      * rewrite IH. split; intros [t Ht]; exists t.
        -- now rewrite Ht.
        -- now injection Ht.
      * split; [discriminate |].
        intros [t Ht]. injection Ht as -> _. now elim Hne.
Qed.

Lemma prefix_app (p t : string) : String.prefix p (p ++ t) = true.
Proof. apply prefix_iff. now exists t. Qed.

Lemma endswith_eq (s suf : string) :
  PyStr.endswith s suf
  = (s =? suf)%string
    || match s with
       | EmptyString => false
       | String _ s' => PyStr.endswith s' suf
       end.
Proof. now destruct s. Qed.

Lemma endswith_iff (s suf : string) :
  PyStr.endswith s suf = true <-> exists p, s = p ++ suf.
Proof.
  induction s as [|x s IH]; rewrite endswith_eq.
  - rewrite orb_false_r, String.eqb_eq. split.
    + intros <-. now exists "".
    + intros [p Hp]. symmetry in Hp. apply sapp_eq_nil in Hp. now symmetry.
  - rewrite orb_true_iff, String.eqb_eq, IH. split.
    + intros [<- | [p ->]]; [now exists "" | now exists (String x p)].
    + intros [[|y p] Hp]; simpl in Hp.
      * now left.
      * right. injection Hp as -> ->. now exists p.
Qed.

Lemma contains_eq (sub s : string) :
  PyStr.contains sub s
  = String.prefix sub s
    || match s with
       | EmptyString => false
       | String _ s' => PyStr.contains sub s'
       end.
Proof. now destruct s. Qed.

Lemma contains_iff (sub s : string) :
  PyStr.contains sub s = true <-> exists p q, s = p ++ sub ++ q.
Proof.
  induction s as [|x s IH]; rewrite contains_eq.
  - rewrite orb_false_r, prefix_iff. split.
    + intros [t Ht]. now exists "", t.
    + intros [p [q Hpq]]. symmetry in Hpq.
      apply sapp_eq_nil in Hpq as [-> Hq]. now exists q.
  - rewrite orb_true_iff, prefix_iff, IH. split.
    + intros [[t Ht] | [p [q ->]]]; [now exists "", t |].
      now exists (String x p), q.
    + intros [[|y p] [q Hpq]]; simpl in Hpq.
      * left. now exists q.
      * right. injection Hpq as -> ->. now exists p, q.
Qed.

(* ================================================================== *)
(** * Facts about the backtracking matcher *)
(* ================================================================== *)

Module ReFacts.
Import Re.

Section Star.
Variable A : Type.
Variable cls : ascii -> bool.
Implicit Types (k : string -> string -> option A) (acc s : string).

(** Whatever [star] returns was returned by the continuation at some
    split of the subject. *)
Lemma star_sound k s : forall acc r,
  star cls acc s k = Some r ->
  exists x y, s = x ++ y /\ PyStr.all cls x = true
              /\ k (acc ++ x) y = Some r.
Proof.
  induction s as [|c s IH]; intros acc r; simpl.
  - intros H. exists "", "". rewrite (sapp_nil_r acc). auto.
  - destruct (cls c) eqn:Hc.
    + destruct (star cls (acc ++ String c "") s k) as [r'|] eqn:Hs.
      * intros [= <-]. apply IH in Hs as (x & y & -> & Hx & Hk).
        exists (String c x), y. simpl. rewrite Hc, Hx.
        rewrite sapp_assoc in Hk. now simpl in Hk.
      * intros H. exists "", (String c s). rewrite (sapp_nil_r acc). auto.
    + intros H. exists "", (String c s). rewrite (sapp_nil_r acc). auto.
Qed.

Lemma star_stop k acc s :
  PyStr.starts cls s = false -> star cls acc s k = k acc s.
Proof. destruct s as [|c s]; simpl; [reflexivity | now intros ->]. Qed.

(** The longest split is tried first: when the continuation refuses
    every split inside [a], the empty split decides. *)
Lemma star_longest k a : forall acc b,
  PyStr.all cls a = true ->
  PyStr.starts cls b = false ->
  (forall x y, a = x ++ y -> x <> "" ->
               k (acc ++ x) (y ++ b) = None) ->
  star cls acc (a ++ b) k = k acc (a ++ b).
Proof.
  induction a as [|c a IH]; intros acc b Ha Hb Hfail; simpl.
  - now apply star_stop.
  - simpl in Ha. apply andb_prop in Ha as [Hc Ha]. rewrite Hc.
    rewrite IH; [| assumption | assumption |].
    + specialize (Hfail (String c "") a eq_refl).
      simpl in Hfail. rewrite Hfail; [reflexivity | discriminate].
    + intros x y -> Hx. rewrite sapp_assoc. simpl.
      apply (Hfail (String c x) y); [reflexivity | discriminate].
Qed.

(** ... and a split that succeeds is returned when every longer one
    is refused. *)
Lemma star_pick k a : forall acc a2 b r,
  PyStr.all cls a = true ->
  PyStr.all cls a2 = true ->
  PyStr.starts cls b = false ->
  (forall x y, a2 = x ++ y -> x <> "" ->
               k (acc ++ a ++ x) (y ++ b) = None) ->
  k (acc ++ a) (a2 ++ b) = Some r ->
  star cls acc (a ++ a2 ++ b) k = Some r.
Proof.
  induction a as [|c a IH]; intros acc a2 b r Ha Ha2 Hb Hfail Hk; simpl.
  - rewrite (sapp_nil_r acc) in Hk.
    rewrite star_longest; try assumption.
  - simpl in Ha. apply andb_prop in Ha as [Hc Ha]. rewrite Hc.
    rewrite (IH (acc ++ String c "") a2 b r); try assumption.
    + reflexivity.
    + intros x y E Hx. rewrite !sapp_assoc. simpl.
      apply (Hfail x y E Hx).
    + rewrite sapp_assoc. now simpl.
Qed.

(** A continuation that always answers makes [star] answer. *)
Lemma star_total k s : forall acc,
  (forall x y, k x y <> None) -> star cls acc s k <> None.
Proof.
  induction s as [|c s IH]; intros acc Hk; simpl; [apply Hk |].
  destruct (cls c); [| apply Hk].
  destruct (star cls (acc ++ String c "") s k); [discriminate | apply Hk].
Qed.

Lemma plus_sound k s r :
  plus cls s k = Some r ->
  exists x y, s = x ++ y /\ x <> "" /\ PyStr.all cls x = true
              /\ k x y = Some r.
Proof.
  destruct s as [|c s]; simpl; [discriminate |].
  destruct (cls c) eqn:Hc; [| discriminate].
  intros H. apply star_sound in H as (x & y & -> & Hx & Hk).
  exists (String c x), y. simpl. rewrite Hc, Hx.
  repeat split; [discriminate | exact Hk].
Qed.

Lemma plus_refuses k s :
  PyStr.starts cls s = false -> plus cls s k = None.
Proof. destruct s as [|c s]; simpl; [reflexivity | now intros ->]. Qed.

Lemma plus_pick k a a2 b r :
  a <> "" ->
  PyStr.all cls a = true ->
  PyStr.all cls a2 = true ->
  PyStr.starts cls b = false ->
  (forall x y, a2 = x ++ y -> x <> "" -> k (a ++ x) (y ++ b) = None) ->
  k a (a2 ++ b) = Some r ->
  plus cls (a ++ a2 ++ b) k = Some r.
Proof.
  destruct a as [|c a]; [congruence |]. intros _ Ha Ha2 Hb Hfail Hk.
  simpl in Ha. apply andb_prop in Ha as [Hc Ha]. simpl. rewrite Hc.
  apply star_pick; assumption.
Qed.

Lemma plus_exact k a b r :
  a <> "" ->
  PyStr.all cls a = true ->
  PyStr.starts cls b = false ->
  k a b = Some r ->
  plus cls (a ++ b) k = Some r.
Proof.
  intros Hne Ha Hb Hk.
  change (a ++ b) with (a ++ "" ++ b).
  apply plus_pick; try assumption; [reflexivity |].
  intros x y E Hx. symmetry in E. apply sapp_eq_nil in E as [-> _].
  now elim Hx.
Qed.

Lemma plus_total k c s :
  cls c = true -> (forall x y, k x y <> None) ->
  plus cls (String c s) k <> None.
Proof. intros Hc Hk. simpl. rewrite Hc. now apply star_total. Qed.
End Star.

(** Soundness of the matcher: a result comes from the continuation,
    called on a word of the pattern and what follows it. *)
Lemma run_sound (A : Type) (r : regex) :
  forall s m (k : cont A) res,
    run r s m k = Some res ->
    exists w rest m',
      s = w ++ rest /\ matches r w m m' /\ k w rest m' = Some res.
Proof.
  induction r as [c | cls | i r IH | r1 IH1 r2 IH2]; intros s m k res; simpl.
  - destruct s as [|c' s]; [discriminate |].
    destruct (Ascii.eqb_spec c c') as [<-|]; [| discriminate].
    intros H. exists (String c ""), s, m. auto.
  - intros H. apply plus_sound in H as (x & y & -> & Hne & Hx & Hk).
    exists x, y, m. auto.
  - intros H. apply IH in H as (w & rest & m' & -> & Hm & Hk).
    exists w, rest, ((i, w) :: m'). eauto.
  - intros H. apply IH1 in H as (w1 & rest1 & m1 & -> & Hm1 & H).
    apply IH2 in H as (w2 & rest2 & m2 & -> & Hm2 & Hk).
    exists (w1 ++ w2), rest2, m2. rewrite sapp_assoc.
    repeat split; [| exact Hk]. now exists w1, w2, m1.
Qed.

(** Completeness: when the pattern has a word at the start of the
    subject after which the continuation answers, the matcher answers. *)
Lemma star_complete (A : Type) (cls : ascii -> bool)
      (k : string -> string -> option A) (x : string) :
  forall acc y,
    PyStr.all cls x = true -> k (acc ++ x) y <> None ->
    star cls acc (x ++ y) k <> None.
Proof.
  induction x as [|c x IH]; intros acc y Hx Hk.
  - rewrite sapp_nil_r in Hk. simpl.
    destruct y as [|d y]; simpl; [assumption |].
    destruct (cls d); [| assumption].
    now destruct (star cls (acc ++ String d "") y k).
  - simpl in Hx. apply andb_prop in Hx as [Hc Hx]. simpl. rewrite Hc.
    assert (H : star cls (acc ++ String c "") (x ++ y) k <> None).
    { apply IH; [assumption |]. now rewrite sapp_assoc. }
    now destruct (star cls (acc ++ String c "") (x ++ y) k).
Qed.

Lemma run_complete (A : Type) (r : regex) :
  forall w rest m m' (k : cont A),
    matches r w m m' -> k w rest m' <> None ->
    run r (w ++ rest) m k <> None.
Proof.
  induction r as [c | cls | i r IH | r1 IH1 r2 IH2];
    intros w rest m m' k Hm Hk; simpl in Hm.
  - destruct Hm as [-> ->]. simpl. now rewrite Ascii.eqb_refl.
  - destruct Hm as (Hne & Hw & ->). destruct w as [|c w]; [congruence |].
    simpl in Hw. apply andb_prop in Hw as [Hc Hw]. simpl. rewrite Hc.
    now apply star_complete.
  - destruct Hm as (m1 & Hm & ->). simpl. now apply (IH w rest m m1).
  - destruct Hm as (w1 & w2 & m1 & -> & Hm1 & Hm2). simpl.
    rewrite sapp_assoc. apply (IH1 w1 (w2 ++ rest) m m1); [assumption |].
    now apply (IH2 w2 rest m1 m').
Qed.

Lemma re_match_sound (r : regex) (s : string) (m : match_obj) :
  re_match r s = Some m ->
  exists w rest, s = w ++ rest /\ matches r w [] m.
Proof.
  unfold re_match. intros H.
  apply run_sound in H as (w & rest & m' & -> & Hm & [= <-]).
  now exists w, rest.
Qed.

(** [pattern.match(s)] answers exactly when some word of the pattern
    begins [s]. *)
Lemma re_match_some (r : regex) (s : string) :
  re_match r s <> None
  <-> exists w rest m, s = w ++ rest /\ matches r w [] m.
Proof.
  split.
  - destruct (re_match r s) as [m|] eqn:H; [| congruence]. intros _.
    apply re_match_sound in H as (w & rest & E & Hm). now exists w, rest, m.
  - intros (w & rest & m & -> & Hm). unfold re_match.
    now apply (run_complete _ r w rest [] m).
Qed.
End ReFacts.

(* ================================================================== *)
(** * The key parser *)
(* ================================================================== *)

Lemma all_impl (p q : ascii -> bool) (s : string) :
  (forall c, p c = true -> q c = true) ->
  PyStr.all p s = true -> PyStr.all q s = true.
Proof.
  intros Hpq. induction s as [|c s IH]; simpl; [reflexivity |].
  intros H. apply andb_prop in H as [Hc Hs].
  now rewrite (Hpq c Hc), IH.
Qed.

Lemma digit_not_colon (c : ascii) : PyStr.isdigit c = true -> not_colon c = true.
Proof.
  destruct c as [[] [] [] [] [] [] [] []]; vm_compute; congruence.
Qed.

Lemma digit_not_blank (c : ascii) : PyStr.isdigit c = true -> is_blank c = false.
Proof.
  destruct c as [[] [] [] [] [] [] [] []]; vm_compute; congruence.
Qed.

Lemma blank_not_colon (c : ascii) : is_blank c = true -> not_colon c = true.
Proof.
  unfold is_blank, not_colon. intros H. apply Ascii.eqb_eq in H. now subst c.
Qed.

Lemma starts_app (p : ascii -> bool) (a b : string) :
  a <> "" -> PyStr.starts p (a ++ b) = PyStr.starts p a.
Proof. destruct a; [congruence | reflexivity]. Qed.

Lemma starts_all (p : ascii -> bool) (a : string) :
  a <> "" -> PyStr.all p a = true -> PyStr.starts p a = true.
Proof.
  destruct a as [|c a]; [congruence |]. simpl. intros _ H.
  now apply andb_prop in H.
Qed.

Lemma digits_start_no_blank (a b : string) :
  a <> "" -> PyStr.all PyStr.isdigit a = true ->
  PyStr.starts is_blank (a ++ b) = false.
Proof.
  destruct a as [|c a]; [congruence |]. simpl. intros _ H.
  apply andb_prop in H as [H _]. now apply digit_not_blank.
Qed.

(** The first pattern on [Book C:V]: the book is what precedes the last
    blank before the digits, and what follows the verse digits is not
    looked at. *)
Lemma match_book_chapter_verse (Book C V rest : string) :
  Book <> "" -> PyStr.all not_colon Book = true ->
  C <> "" -> PyStr.all PyStr.isdigit C = true ->
  V <> "" -> PyStr.all PyStr.isdigit V = true ->
  PyStr.starts PyStr.isdigit rest = false ->
  Re.re_match KEY_BOOK_CHAPTER_VERSE_REGEXP
              (Book ++ " " ++ C ++ ":" ++ V ++ rest)
  = Some [(3, V); (2, C); (1, Book)].
Proof.
  intros HB HBc HC HCd HV HVd Hrest.
  unfold Re.re_match, KEY_BOOK_CHAPTER_VERSE_REGEXP. cbn [Re.run].
  apply (@ReFacts.plus_pick _ not_colon _ Book (String " " C)
           (String ":" (V ++ rest))); try assumption.
  - simpl. apply all_impl with (p := PyStr.isdigit);
      [apply digit_not_colon | assumption].
  - reflexivity.
  - intros x y E Hx. apply ReFacts.plus_refuses.
    destruct x as [|b x]; [congruence |]. injection E as _ ->.
    rewrite all_app in HCd. apply andb_prop in HCd as [_ Hy].
    destruct y as [|d y]; [reflexivity |]. simpl in *.
    apply andb_prop in Hy as [Hd _]. now apply digit_not_blank.
  - apply (@ReFacts.plus_exact _ is_blank _ " " (C ++ String ":" (V ++ rest)));
      [discriminate | reflexivity | now apply digits_start_no_blank |].
    apply ReFacts.plus_exact; [assumption | assumption | reflexivity |].
    cbn. apply ReFacts.plus_exact; [assumption | assumption | assumption |].
    reflexivity.
Qed.

Ltac break :=
  repeat match goal with
         | H : exists _, _ |- _ => destruct H
         | H : _ /\ _ |- _ => destruct H
         end; subst.

(** The second pattern on [Book C], nothing after the digits. *)
Lemma match_book_chapter (Book C : string) :
  Book <> "" -> PyStr.all not_colon Book = true ->
  C <> "" -> PyStr.all PyStr.isdigit C = true ->
  Re.re_match KEY_BOOK_CHAPTER_REGEXP (Book ++ " " ++ C)
  = Some [(2, C); (1, Book)].
Proof.
  intros HB HBc HC HCd.
  unfold Re.re_match, KEY_BOOK_CHAPTER_REGEXP. cbn [Re.run].
  rewrite <- (sapp_nil_r C) at 1.
  apply (@ReFacts.plus_pick _ not_colon _ Book (String " " C) "");
    try assumption.
  - simpl. apply all_impl with (p := PyStr.isdigit);
      [apply digit_not_colon | assumption].
  - reflexivity.
  - intros x y E Hx. apply ReFacts.plus_refuses.
    destruct x as [|b x]; [congruence |]. injection E as _ ->.
    rewrite all_app in HCd. apply andb_prop in HCd as [_ Hy].
    destruct y as [|d y]; [reflexivity |]. simpl in *.
    apply andb_prop in Hy as [Hd _]. now apply digit_not_blank.
  - apply (@ReFacts.plus_exact _ is_blank _ " " (C ++ ""));
      [discriminate | reflexivity | now apply digits_start_no_blank |].
    apply ReFacts.plus_exact; [assumption | assumption | reflexivity |].
    reflexivity.
Qed.

(** The third pattern takes the longest prefix without a colon. *)
Lemma match_book (Book rest : string) :
  Book <> "" -> PyStr.all not_colon Book = true ->
  PyStr.starts not_colon rest = false ->
  Re.re_match KEY_BOOK_REGEXP (Book ++ rest) = Some [(1, Book)].
Proof.
  intros HB HBc Hrest. unfold Re.re_match, KEY_BOOK_REGEXP. cbn [Re.run].
  now apply ReFacts.plus_exact.
Qed.

(** What a match of each pattern looks like. *)
Lemma match_book_chapter_verse_inv (key : string) (m : Re.match_obj) :
  Re.re_match KEY_BOOK_CHAPTER_VERSE_REGEXP key = Some m ->
  exists b sp c v rest,
    key = b ++ sp ++ c ++ ":" ++ v ++ rest
    /\ m = [(3, v); (2, c); (1, b)]
    /\ (b <> "" /\ PyStr.all not_colon b = true)
    /\ (sp <> "" /\ PyStr.all is_blank sp = true)
    /\ (c <> "" /\ PyStr.all PyStr.isdigit c = true)
    /\ (v <> "" /\ PyStr.all PyStr.isdigit v = true).
Proof.
  intros H. apply ReFacts.re_match_sound in H as (w & rest & -> & Hm).
  cbn [Re.matches KEY_BOOK_CHAPTER_VERSE_REGEXP] in Hm. break.
  match goal with
  | |- exists _ _ _ _ _, (?b ++ ?sp ++ ?c ++ _ ++ ?v) ++ _ = _ /\ _ =>
      exists b, sp, c, v, rest
  end.
  rewrite !sapp_assoc. simpl. auto 10.
Qed.

Lemma match_book_chapter_inv (key : string) (m : Re.match_obj) :
  Re.re_match KEY_BOOK_CHAPTER_REGEXP key = Some m ->
  exists b sp c rest,
    key = b ++ sp ++ c ++ rest
    /\ m = [(2, c); (1, b)]
    /\ (b <> "" /\ PyStr.all not_colon b = true)
    /\ (sp <> "" /\ PyStr.all is_blank sp = true)
    /\ (c <> "" /\ PyStr.all PyStr.isdigit c = true).
Proof.
  intros H. apply ReFacts.re_match_sound in H as (w & rest & -> & Hm).
  cbn [Re.matches KEY_BOOK_CHAPTER_REGEXP] in Hm. break.
  match goal with
  | |- exists _ _ _ _, (?b ++ ?sp ++ ?c) ++ _ = _ /\ _ =>
      exists b, sp, c, rest
  end.
  rewrite !sapp_assoc. auto 10.
Qed.

Lemma match_book_inv (key : string) (m : Re.match_obj) :
  Re.re_match KEY_BOOK_REGEXP key = Some m ->
  exists b rest,
    key = b ++ rest /\ m = [(1, b)]
    /\ b <> "" /\ PyStr.all not_colon b = true.
Proof.
  intros H. apply ReFacts.re_match_sound in H as (w & rest & -> & Hm).
  cbn [Re.matches KEY_BOOK_REGEXP] in Hm. break.
  eexists _, rest. auto.
Qed.

Lemma blank_digit_app_r (p s : string) :
  blank_digit s = true -> blank_digit (p ++ s) = true.
Proof.
  intros H. induction p as [|c p IH]; simpl; [exact H |].
  rewrite IH. apply orb_true_r.
Qed.

Lemma blank_digit_app_l (p s : string) :
  blank_digit p = true -> blank_digit (p ++ s) = true.
Proof.
  induction p as [|c p IH]; simpl; [discriminate |].
  intros H. apply orb_prop in H as [H | H].
  - apply andb_prop in H as [Hc Hp]. rewrite Hc.
    destruct p as [|d p]; [discriminate |]. simpl in *. now rewrite Hp.
  - rewrite (IH H). apply orb_true_r.
Qed.

Lemma blanks_then_digits (sp c : string) :
  sp <> "" -> PyStr.all is_blank sp = true ->
  c <> "" -> PyStr.all PyStr.isdigit c = true ->
  blank_digit (sp ++ c) = true.
Proof.
  intros Hsp Hb Hc Hd. induction sp as [|x sp IH]; [congruence |].
  simpl in Hb. apply andb_prop in Hb as [Hx Hb]. simpl. rewrite Hx.
  destruct sp as [|y sp].
  - simpl. now rewrite (starts_all _ _ Hc Hd).
  - rewrite IH; [apply orb_true_r | discriminate | assumption].
Qed.

(** A colon-free prefix of the key lies inside its longest one. *)
Lemma prefix_of_maximal (a : string) : forall t Book rest,
  a ++ t = Book ++ rest ->
  PyStr.all not_colon a = true ->
  PyStr.starts not_colon rest = false ->
  exists u, Book = a ++ u.
Proof.
  induction a as [|c a IH]; intros t Book rest E Ha Hrest.
  - now exists Book.
  - simpl in Ha. apply andb_prop in Ha as [Hc Ha].
    destruct Book as [|d Book]; simpl in E.
    + subst rest. simpl in Hrest. congruence.
    + injection E as -> E. destruct (IH _ _ _ E Ha Hrest) as [u ->].
      now exists u.
Qed.

Lemma blank_digit_inv (s : string) :
  blank_digit s = true ->
  exists p d q, s = p ++ String " " (String d q) /\ PyStr.isdigit d = true.
Proof.
  induction s as [|c s IH]; simpl; [discriminate |].
  intros H. apply orb_prop in H as [H | H].
  - apply andb_prop in H as [Hc Hd]. apply Ascii.eqb_eq in Hc. subst c.
    destruct s as [|d q]; [discriminate |]. now exists "", d, q.
  - destruct (IH H) as (p & d & q & -> & Hd). now exists (String c p), d, q.
Qed.

(** Without a blank followed by a digit after the first character and
    before the first colon, neither of the first two patterns matches. *)
Lemma no_chapter (Book rest : string) :
  PyStr.all not_colon Book = true ->
  PyStr.starts not_colon rest = false ->
  blank_digit (PyStr.tail Book) = false ->
  Re.re_match KEY_BOOK_CHAPTER_REGEXP (Book ++ rest) = None.
Proof.
  intros HBc Hrest Hbd.
  destruct (Re.re_match _ _) as [m|] eqn:Hm; [| reflexivity].
  apply match_book_chapter_inv in Hm
    as (b & sp & c & t & E & _ & [Hbne Hb] & [Hsp Hspb] & [Hc Hcd]).
  exfalso. symmetry in E.
  rewrite <- (sapp_assoc sp c), <- (sapp_assoc b (sp ++ c)) in E.
  apply prefix_of_maximal in E as [u ->]; [| | assumption].
  - destruct b as [|x b]; [congruence |]. simpl in Hbd.
    rewrite (sapp_assoc b) in Hbd.
    rewrite blank_digit_app_r in Hbd; [discriminate |].
    apply blank_digit_app_l. now apply blanks_then_digits.
  - rewrite !all_app, Hb. simpl.
    rewrite (all_impl _ _ _ blank_not_colon Hspb).
    now rewrite (all_impl _ _ _ digit_not_colon Hcd).
Qed.

Lemma no_verse (Book rest : string) :
  PyStr.all not_colon Book = true ->
  PyStr.starts not_colon rest = false ->
  blank_digit (PyStr.tail Book) = false ->
  Re.re_match KEY_BOOK_CHAPTER_VERSE_REGEXP (Book ++ rest) = None.
Proof.
  intros HBc Hrest Hbd.
  destruct (Re.re_match _ _) as [m|] eqn:Hm; [| reflexivity].
  apply match_book_chapter_verse_inv in Hm
    as (b & sp & c & v & t & E & _ & [Hbne Hb] & [Hsp Hspb] & [Hc Hcd] & _).
  exfalso. symmetry in E.
  rewrite <- (sapp_assoc sp c), <- (sapp_assoc b (sp ++ c)) in E.
  apply prefix_of_maximal in E as [u ->]; [| | assumption].
  - destruct b as [|x b]; [congruence |]. simpl in Hbd.
    rewrite (sapp_assoc b) in Hbd.
    rewrite blank_digit_app_r in Hbd; [discriminate |].
    apply blank_digit_app_l. now apply blanks_then_digits.
  - rewrite !all_app, Hb. simpl.
    rewrite (all_impl _ _ _ blank_not_colon Hspb).
    now rewrite (all_impl _ _ _ digit_not_colon Hcd).
Qed.

(** A key without a colon has no verse part. *)
Lemma no_colon_no_verse (key : string) :
  PyStr.all not_colon key = true ->
  Re.re_match KEY_BOOK_CHAPTER_VERSE_REGEXP key = None.
Proof.
  intros Hk.
  destruct (Re.re_match _ _) as [m|] eqn:Hm; [| reflexivity].
  apply match_book_chapter_verse_inv in Hm
    as (b & sp & c & v & t & -> & _).
  rewrite !all_app in Hk. simpl in Hk.
  rewrite !andb_false_r in Hk. discriminate.
Qed.

(** ** [int] on the digit groups *)

Lemma int_digits (s : string) :
  s <> "" -> PyStr.all PyStr.isdigit s = true ->
  String.length s <= PyStr.max_str_digits ->
  PyStr.int s = Ok (PyStr.value s).
Proof.
  intros Hne Hd Hlen. unfold PyStr.int. rewrite Hd.
  destruct s; [congruence |]. cbn [PyStr.is_empty negb].
  apply Nat.leb_le in Hlen. now rewrite Hlen.
Qed.

Lemma int_too_long (s : string) :
  PyStr.all PyStr.isdigit s = true ->
  PyStr.max_str_digits < String.length s ->
  PyStr.int s = Raise ValueError.
Proof.
  intros Hd Hlen. unfold PyStr.int. rewrite Hd.
  destruct (PyStr.is_empty s); [reflexivity |]. cbn [negb].
  apply Nat.leb_gt in Hlen. now rewrite Hlen.
Qed.

Lemma int_digits_cases (s : string) :
  PyStr.all PyStr.isdigit s = true ->
  PyStr.int s = Ok (PyStr.value s) \/ PyStr.int s = Raise ValueError.
Proof.
  intros Hd. unfold PyStr.int. rewrite Hd.
  destruct (PyStr.is_empty s); [now right |]. cbn [negb].
  destruct (String.length s <=? PyStr.max_str_digits)%nat; [now left | now right].
Qed.

(** ** What [split_key] returns *)

Lemma split_key_book_chapter_verse (Book C V rest : string) :
  Book <> "" -> PyStr.all not_colon Book = true ->
  C <> "" -> PyStr.all PyStr.isdigit C = true ->
  V <> "" -> PyStr.all PyStr.isdigit V = true ->
  PyStr.starts PyStr.isdigit rest = false ->
  split_key (Book ++ " " ++ C ++ ":" ++ V ++ rest)
  = (c <- PyStr.int C ;; v <- PyStr.int V ;; Ok (Some (Book, Some c, Some v))).
Proof.
  intros. unfold split_key.
  now rewrite match_book_chapter_verse.
Qed.

Lemma split_key_book_chapter (Book C : string) :
  Book <> "" -> PyStr.all not_colon Book = true ->
  C <> "" -> PyStr.all PyStr.isdigit C = true ->
  split_key (Book ++ " " ++ C)
  = (c <- PyStr.int C ;; Ok (Some (Book, Some c, None))).
Proof.
  intros HB HBc HC HCd. unfold split_key.
  rewrite no_colon_no_verse.
  - now rewrite match_book_chapter.
  - rewrite !all_app, HBc. simpl.
    now rewrite (all_impl _ _ _ digit_not_colon HCd).
Qed.

Lemma split_key_book (Book rest : string) :
  Book <> "" -> PyStr.all not_colon Book = true ->
  PyStr.starts not_colon rest = false ->
  blank_digit (PyStr.tail Book) = false ->
  split_key (Book ++ rest) = Ok (Some (Book, None, None)).
Proof.
  intros HB HBc Hrest Hbd. unfold split_key.
  now rewrite no_verse, no_chapter, match_book.
Qed.

(** The book that [split_key] returns is never empty, has no colon and
    begins the key. *)
Lemma split_key_some (key b : string) (c v : option Z) :
  split_key key = Ok (Some (b, c, v)) ->
  b <> "" /\ PyStr.all not_colon b = true /\ exists rest, key = b ++ rest.
Proof.
  unfold split_key.
  destruct (Re.re_match KEY_BOOK_CHAPTER_VERSE_REGEXP key) as [m|] eqn:H1.
  { apply match_book_chapter_verse_inv in H1
      as (b' & sp & c' & v' & t & -> & -> & [Hb Hbc] & _).
    simpl. destruct (PyStr.int c'); try discriminate.
    destruct (PyStr.int v'); try discriminate.
    intros [= <- _ _]. repeat split; eauto. }
  destruct (Re.re_match KEY_BOOK_CHAPTER_REGEXP key) as [m|] eqn:H2.
  { apply match_book_chapter_inv in H2
      as (b' & sp & c' & t & -> & -> & [Hb Hbc] & _).
    simpl. destruct (PyStr.int c'); try discriminate.
    intros [= <- _ _]. repeat split; eauto. }
  destruct (Re.re_match KEY_BOOK_REGEXP key) as [m|] eqn:H3; [| discriminate].
  apply match_book_inv in H3 as (b' & t & -> & -> & Hb & Hbc).
  intros [= <- _ _]. simpl. repeat split; eauto.
Qed.

(** [split_key] returns a result, returns [None], or raises the
    [ValueError] of [int]; it does nothing else. *)
Lemma split_key_cases (key : string) :
  split_key key = Ok None
  \/ (exists b c v, split_key key = Ok (Some (b, c, v)))
  \/ split_key key = Raise ValueError.
Proof.
  unfold split_key.
  destruct (Re.re_match KEY_BOOK_CHAPTER_VERSE_REGEXP key) as [m|] eqn:H1.
  { apply match_book_chapter_verse_inv in H1
      as (b' & sp & c' & v' & t & -> & -> & _ & _ & [_ Hc] & [_ Hv]).
    simpl.
    destruct (int_digits_cases c' Hc) as [-> | ->]; [| now right; right].
    destruct (int_digits_cases v' Hv) as [-> | ->]; [| now right; right].
    right. left. simpl. eauto. }
  destruct (Re.re_match KEY_BOOK_CHAPTER_REGEXP key) as [m|] eqn:H2.
  { apply match_book_chapter_inv in H2
      as (b' & sp & c' & t & -> & -> & _ & _ & [_ Hc]).
    simpl.
    destruct (int_digits_cases c' Hc) as [-> | ->]; [| now right; right].
    right. left. simpl. eauto. }
  destruct (Re.re_match KEY_BOOK_REGEXP key) as [m|]; [| now left].
  right. left. eauto.
Qed.

(** A key of at most [max_str_digits] characters never makes [int]
    raise. *)
Lemma split_key_short (key : string) :
  String.length key <= PyStr.max_str_digits ->
  split_key key <> Raise ValueError.
Proof.
  intros Hlen. unfold split_key.
  destruct (Re.re_match KEY_BOOK_CHAPTER_VERSE_REGEXP key) as [m|] eqn:H1.
  { apply match_book_chapter_verse_inv in H1
      as (b' & sp & c' & v' & t & -> & -> & _ & _ & [Hc Hcd] & [Hv Hvd]).
    simpl. rewrite ?sapp_length in Hlen.
    rewrite (int_digits c' Hc Hcd) by lia. simpl.
    rewrite (int_digits v' Hv Hvd) by lia. discriminate. }
  destruct (Re.re_match KEY_BOOK_CHAPTER_REGEXP key) as [m|] eqn:H2.
  { apply match_book_chapter_inv in H2
      as (b' & sp & c' & t & -> & -> & _ & _ & [Hc Hcd]).
    simpl. rewrite ?sapp_length in Hlen.
    rewrite (int_digits c' Hc Hcd) by lia. discriminate. }
  destruct (Re.re_match KEY_BOOK_REGEXP key); discriminate.
Qed.

(** No result: exactly the empty key and the keys that begin with a
    colon. *)
Lemma split_key_none (key : string) :
  split_key key = Ok None <-> key = "" \/ exists s, key = String ":" s.
Proof.
  split.
  - destruct key as [|c s]; [now left |].
    destruct (Ascii.eqb_spec c ":") as [->|Hc]; [right; now exists s |].
    intros H. exfalso. revert H. unfold split_key.
    destruct (Re.re_match KEY_BOOK_CHAPTER_VERSE_REGEXP _) as [m|].
    { destruct (PyStr.int (Re.group m 2)); try discriminate. simpl.
      destruct (PyStr.int (Re.group m 3)); discriminate. }
    destruct (Re.re_match KEY_BOOK_CHAPTER_REGEXP _) as [m|].
    { destruct (PyStr.int (Re.group m 2)); discriminate. }
    destruct (Re.re_match KEY_BOOK_REGEXP (String c s)) eqn:H3;
      [discriminate |].
    intros _. revert H3. unfold Re.re_match, KEY_BOOK_REGEXP. cbn [Re.run].
    apply ReFacts.plus_total; [| discriminate].
    unfold not_colon. now apply negb_true_iff, Ascii.eqb_neq.
  - intros [-> | [s ->]]; reflexivity.
Qed.

(** The keys that come back whole, as a book without chapter and
    verse. *)
Lemma split_key_whole (key : string) :
  split_key key = Ok (Some (key, None, None))
  <-> key <> "" /\ PyStr.all not_colon key = true
      /\ blank_digit (PyStr.tail key) = false.
Proof.
  split.
  - intros H. destruct (split_key_some key key None None H) as (Hne & Hc & _).
    split; [assumption | split; [assumption |]].
    apply not_true_iff_false. intros Hbd.
    apply blank_digit_inv in Hbd as (p & d & q & E & Hd).
    destruct key as [|x key]; [congruence |]. simpl in E. subst key.
    assert (Hm : Re.re_match KEY_BOOK_CHAPTER_REGEXP
                   (String x (p ++ String " " (String d q))) <> None).
    { apply ReFacts.re_match_some.
      exists (String x p ++ " " ++ String d ""), q,
             [(2, String d ""); (1, String x p)].
      split; [simpl; now rewrite !sapp_assoc |].
      simpl in Hc. apply andb_prop in Hc as [Hx Hc].
      rewrite all_app in Hc. apply andb_prop in Hc as [Hp _].
      cbn [Re.matches KEY_BOOK_CHAPTER_REGEXP].
      exists (String x p), (" " ++ String d ""), [(1, String x p)].
      split; [reflexivity | split].
      - exists []. repeat split; [discriminate |]. simpl. now rewrite Hx, Hp.
      - exists " ", (String d ""), [(1, String x p)].
        split; [reflexivity | split].
        + repeat split. discriminate.
        + exists [(1, String x p)]. repeat split; [discriminate |].
          simpl. now rewrite Hd. }
    revert H. unfold split_key. rewrite (no_colon_no_verse _ Hc).
    destruct (Re.re_match KEY_BOOK_CHAPTER_REGEXP _) as [m|]; [| congruence].
    destruct (PyStr.int (Re.group m 2)); discriminate.
  - intros (Hne & Hc & Hbd). rewrite <- (sapp_nil_r key) at 1.
    now apply split_key_book.
Qed.

(* ================================================================== *)
(** * The keyword filter *)
(* ================================================================== *)

Lemma mem_In (x : string) (l : list string) : mem x l = true <-> In x l.
Proof.
  unfold mem. rewrite existsb_exists. split.
  - intros (y & Hy & E). apply String.eqb_eq in E. now subst.
  - intros H. exists x. split; [assumption | apply String.eqb_refl].
Qed.

Lemma insert_all_In (l : list string) : forall tbl x,
  In x (insert_all tbl l) <-> In x tbl \/ In x l.
Proof.
  induction l as [|y l IH]; intros tbl x; simpl; [tauto |].
  rewrite IH. destruct (mem y tbl) eqn:Hy.
  - apply mem_In in Hy. split; [tauto |].
    intros [H | [<- | H]]; tauto.
  - rewrite in_app_iff. simpl. tauto.
Qed.

Lemma insert_all_NoDup (l : list string) : forall tbl,
  NoDup tbl -> NoDup (insert_all tbl l).
Proof.
  induction l as [|y l IH]; intros tbl Htbl; simpl; [assumption |].
  apply IH. destruct (mem y tbl) eqn:Hy; [assumption |].
  apply NoDup_app; [assumption | repeat constructor; now intros [] |].
  intros x Hx [<- | []].
  apply mem_In in Hx. congruence.
Qed.

Lemma filter_Permutation {A : Type} (f : A -> bool) (l l' : list A) :
  Permutation l l' -> Permutation (filter f l) (filter f l').
Proof.
  induction 1 as [| x l l' _ IH | x y l | l l' l'' _ IH1 _ IH2]; simpl.
  - constructor.
  - destruct (f x); [now constructor | assumption].
  - destruct (f x), (f y); try reflexivity. constructor.
  - now transitivity (filter f l').
Qed.

Lemma filter_filter {A : Type} (f g : A -> bool) (l : list A) :
  filter f (filter g l) = filter (fun x => g x && f x) l.
Proof.
  induction l as [|x l IH]; simpl; [reflexivity |].
  destruct (g x); simpl; [destruct (f x) |]; now rewrite IH.
Qed.

(** Up to the order of the hash table, [filter_keywords] keeps the
    distinct tokens that survive. *)
Lemma filter_keywords_perm (arrange : list string -> list string)
      (keywords : list string) :
  lawful arrange ->
  Permutation (filter_keywords arrange keywords)
              (filter survives (insert_all [] keywords)).
Proof.
  intros Harr. unfold filter_keywords, difference, pyset, survives.
  rewrite <- filter_filter. apply filter_Permutation.
  etransitivity; [apply Harr |]. apply filter_Permutation, Harr.
Qed.

Lemma survives_iff (x : string) :
  survives x = true
  <-> ~ (x = "AND" \/ x = "OR" \/ x = "NOT")
      /\ ~ (exists t, x = String "-" t).
Proof.
  unfold survives. rewrite andb_true_iff, !negb_true_iff.
  rewrite <- !not_true_iff_false, mem_In.
  unfold PyStr.startswith. rewrite prefix_iff. simpl.
  split; intros [H1 H2]; (split; [intros H; apply H1 | intros H; apply H2]).
  - destruct H as [-> | [-> | ->]]; auto.
  - exact H.
  - destruct H as [<- | [<- | [<- | []]]]; auto.
  - exact H.
Qed.

Lemma filter_keywords_In (arrange : list string -> list string)
      (keywords : list string) (x : string) :
  lawful arrange ->
  In x (filter_keywords arrange keywords)
  <-> In x keywords /\ survives x = true.
Proof.
  intros Harr. pose proof (filter_keywords_perm arrange keywords Harr) as P.
  split.
  - intros H. apply (Permutation_in _ P) in H.
    apply filter_In in H as [H Hs]. apply insert_all_In in H as [[] | H].
    auto.
  - intros [H Hs]. apply (Permutation_in _ (Permutation_sym P)).
    apply filter_In. split; [| assumption]. apply insert_all_In. auto.
Qed.

Lemma filter_keywords_NoDup (arrange : list string -> list string)
      (keywords : list string) :
  lawful arrange -> NoDup (filter_keywords arrange keywords).
Proof.
  intros Harr.
  apply (Permutation_NoDup
           (Permutation_sym (filter_keywords_perm arrange keywords Harr))).
  apply NoDup_filter, insert_all_NoDup. constructor.
Qed.

Lemma filter_keywords_again (arrange : list string -> list string)
      (keywords : list string) :
  lawful arrange ->
  Permutation (filter_keywords arrange (filter_keywords arrange keywords))
              (filter_keywords arrange keywords).
Proof.
  intros Harr.
  apply NoDup_Permutation; try now apply filter_keywords_NoDup.
  intros x. rewrite (filter_keywords_In arrange (filter_keywords _ _) x Harr).
  rewrite (filter_keywords_In arrange keywords x Harr). tauto.
Qed.

Lemma insertion_order_lawful : lawful insertion_order.
Proof. intros l. reflexivity. Qed.

Lemma slot_insert_perm (h : string -> N) (x : string) (l : list string) :
  Permutation (slot_insert h x l) (x :: l).
Proof.
  induction l as [|y l IH]; simpl; [reflexivity |].
  destruct (h x <=? h y)%N; [reflexivity |].
  rewrite IH. apply perm_swap.
Qed.

Lemma by_hash_lawful (h : string -> N) : lawful (by_hash h).
Proof.
  intros l. induction l as [|x l IH]; simpl; [reflexivity |].
  rewrite slot_insert_perm. now constructor.
Qed.

(* ================================================================== *)
(** * The flat-file search *)
(* ================================================================== *)

Lemma found_all_forallb (query : list string) (txt : string) :
  found_all query txt = forallb (fun key => PyStr.contains key txt) query.
Proof.
  induction query as [|key query IH]; simpl; [reflexivity |].
  destruct (PyStr.contains key txt); simpl; [exact IH | reflexivity].
Qed.

Lemma append_loop {A : Type} (f : A -> bool) (l : list A) : forall acc,
  fold_left (fun result v => if f v then (result ++ [v])%list else result)
            l acc
  = (acc ++ filter f l)%list.
Proof.
  induction l as [|v l IH]; intros acc; simpl.
  - now rewrite app_nil_r.
  - rewrite IH. destruct (f v); [| reflexivity].
    now rewrite <- app_assoc.
Qed.

Lemma search_json_filter (verses : list VerseRecord) (query : string) :
  search_json verses query
  = filter (fun v => forallb (fun key => PyStr.contains key (text v))
                             (PyStr.split query))
           verses.
Proof.
  unfold search_json. rewrite append_loop. simpl.
  apply filter_ext. intros v. apply found_all_forallb.
Qed.

(** [str.split]: white space alone gives no token. *)
Lemma split_blank (s : string) :
  PyStr.all PyStr.isspace s = true -> PyStr.split s = [].
Proof.
  unfold PyStr.split. induction s as [|c s IH]; simpl; [reflexivity |].
  intros H. apply andb_prop in H as [Hc Hs]. rewrite Hc. auto.
Qed.

Lemma split_from_word (t : string) : forall cur rest,
  PyStr.all (fun c => negb (PyStr.isspace c)) t = true ->
  PyStr.split_from cur (t ++ rest) = PyStr.split_from (cur ++ t) rest.
Proof.
  induction t as [|c t IH]; intros cur rest H; simpl.
  - now rewrite sapp_nil_r.
  - simpl in H. apply andb_prop in H as [Hc Ht].
    apply negb_true_iff in Hc. rewrite Hc, IH by assumption.
    now rewrite sapp_assoc.
Qed.

(** The tokens of [str.split] are not empty and hold no white space. *)
Lemma split_from_tokens (s : string) : forall cur t,
  PyStr.all (fun c => negb (PyStr.isspace c)) cur = true ->
  In t (PyStr.split_from cur s) ->
  t <> "" /\ PyStr.all (fun c => negb (PyStr.isspace c)) t = true.
Proof.
  induction s as [|c s IH]; intros cur t Hcur; simpl.
  - destruct cur; simpl; [intros [] |].
    intros [<- | []]. split; [discriminate | assumption].
  - destruct (PyStr.isspace c) eqn:Hc.
    + destruct cur as [|d cur]; simpl.
      * now apply IH.
      * intros [<- | H]; [split; [discriminate | assumption] |].
        now apply (IH "").
    + apply IH. rewrite all_app, Hcur. simpl. now rewrite Hc.
Qed.

Lemma split_tokens (s t : string) :
  In t (PyStr.split s) ->
  t <> "" /\ PyStr.all (fun c => negb (PyStr.isspace c)) t = true.
Proof. now apply split_from_tokens. Qed.

(** What [split_from] returns: the run that continues [cur], and the
    runs that follow a white-space character. *)
Lemma split_from_In (s : string) : forall cur k,
  In k (PyStr.split_from cur s)
  <-> (k <> ""
       /\ exists r post,
            k = cur ++ r
            /\ PyStr.all (fun c => negb (PyStr.isspace c)) r = true
            /\ s = r ++ post
            /\ (post = "" \/ PyStr.starts PyStr.isspace post = true))
      \/ (exists pre c rest, s = pre ++ String c rest
                             /\ PyStr.isspace c = true
                             /\ leading_token rest k).
Proof.
  induction s as [|c s IH]; intros cur k.
  - cbn [PyStr.split_from]. split.
    + destruct cur as [|d cur]; [intros [] |]. intros [<- | []].
      left. split; [discriminate |]. exists "", "".
      rewrite sapp_nil_r. auto.
    + intros [(Hk & r & post & -> & _ & E & _) | (pre & d & rest & E & _)].
      * symmetry in E. apply sapp_eq_nil in E as [-> _].
        rewrite sapp_nil_r in *. destruct cur; [congruence | now left].
      * destruct pre; discriminate.
  - cbn [PyStr.split_from]. destruct (PyStr.isspace c) eqn:Hc.
    + assert (Htail : In k (PyStr.split_from "" s)
                      <-> exists pre d rest,
                            String c s = pre ++ String d rest
                            /\ PyStr.isspace d = true
                            /\ leading_token rest k).
      { rewrite IH. split.
        - intros [(Hk & r & post & -> & Hr & -> & Hp)
                 | (pre & d & rest & -> & Hd & Hl)].
          + exists "", c, (r ++ post). repeat split; eauto.
          + exists (String c pre), d, rest. auto.
        - intros (pre & d & rest & E & Hd & Hl).
          destruct pre as [|x pre]; simpl in E; injection E as <- ->.
          + left. destruct Hl as (Hk & Hr & post & -> & Hp).
            split; [assumption |]. exists k, post. auto.
          + right. exists pre, d, rest. auto. }
      assert (Hhead : cur <> "" /\ k = cur
                      <-> k <> ""
                          /\ exists r post,
                               k = cur ++ r
                               /\ PyStr.all (fun c => negb (PyStr.isspace c)) r
                                  = true
                               /\ String c s = r ++ post
                               /\ (post = ""
                                   \/ PyStr.starts PyStr.isspace post = true)).
      { split.
        - intros [Hne ->]. split; [assumption |].
          exists "", (String c s). rewrite sapp_nil_r. simpl. auto.
        - intros (Hk & r & post & -> & Hr & E & _).
          destruct r as [|x r].
          + rewrite sapp_nil_r in *. auto.
          + simpl in E. injection E as <- _. simpl in Hr.
            rewrite Hc in Hr. discriminate. }
      rewrite <- Hhead, <- Htail.
      destruct cur as [|d cur]; simpl.
      * split; [now right | intros [[H _] | H]; [congruence | assumption]].
      * split.
        -- intros [<- | H]; [left; split; [discriminate | reflexivity]
                            | now right].
        -- intros [[_ ->] | H]; [now left | now right].
    + rewrite IH. split.
      * intros [(Hk & r & post & -> & Hr & -> & Hp)
               | (pre & d & rest & -> & Hd & Hl)].
        -- left. split; [assumption |]. exists (String c r), post.
           rewrite sapp_assoc. simpl. rewrite Hc, Hr. auto.
        -- right. exists (String c pre), d, rest. auto.
      * intros [(Hk & r & post & -> & Hr & E & Hp)
               | (pre & d & rest & E & Hd & Hl)].
        -- left. split; [assumption |]. destruct r as [|x r].
           ++ simpl in E. subst post. simpl in Hp. rewrite Hc in Hp.
              destruct Hp; discriminate.
           ++ simpl in E. injection E as <- ->. simpl in Hr.
              apply andb_prop in Hr as [_ Hr].
              exists r, post. rewrite sapp_assoc. auto.
        -- right. destruct pre as [|x pre]; simpl in E; injection E as <- ->.
           ++ rewrite Hc in Hd. discriminate.
           ++ exists pre, d, rest. auto.
Qed.

(** The tokens of [str.split] are the tokens of the specification. *)
Lemma split_In (query k : string) :
  In k (PyStr.split query) <-> token_of query k.
Proof.
  unfold PyStr.split, token_of. rewrite split_from_In.
  apply or_iff_compat_r. unfold leading_token. split.
  - intros (Hk & r & post & -> & Hr & -> & Hp). simpl. eauto.
  - intros (Hk & Hr & post & -> & Hp). split; [assumption |].
    exists k, post. auto.
Qed.

Lemma split_from_blank (cur rest : string) :
  cur <> "" ->
  PyStr.split_from cur (String " " rest) = cur :: PyStr.split_from "" rest.
Proof. destruct cur; [congruence | reflexivity]. Qed.

(** Joining tokens with blanks and splitting again gives them back. *)
Lemma split_join (tokens : list string) :
  (forall t, In t tokens ->
             t <> "" /\ PyStr.all (fun c => negb (PyStr.isspace c)) t = true) ->
  PyStr.split (PyStr.join " " tokens) = tokens.
Proof.
  unfold PyStr.split, PyStr.join.
  induction tokens as [|t tokens IH]; intros H; [reflexivity |].
  destruct (H t (or_introl eq_refl)) as [Hne Ht].
  assert (IH' := IH (fun u Hu => H u (or_intror Hu))). clear IH.
  destruct tokens as [|u tokens].
  - simpl. rewrite <- (sapp_nil_r t) at 1.
    rewrite split_from_word by assumption. simpl.
    destruct t; [congruence | reflexivity].
  - change (String.concat " " (t :: u :: tokens))
      with (t ++ String " " (String.concat " " (u :: tokens))).
    rewrite split_from_word, split_from_blank by assumption.
    now rewrite IH'.
Qed.

(* ================================================================== *)
(** * Lookup *)
(* ================================================================== *)

Lemma int_eq_Some (x n : Z) : int_eq x (Some n) = true <-> x = n.
Proof. simpl. apply Z.eqb_eq. Qed.

(** With a verse that is not zero, the flat-file lookup keeps the records
    that agree with the key on all three parts. *)
Lemma lookup_json_verse (verses : list VerseRecord) (key b : string)
      (c : option Z) (v : Z) :
  split_key key = Ok (Some (b, c, Some v)) -> v <> 0%Z ->
  lookup_json verses key
  = Ok (filter (fun r => (book r =? b)%string && int_eq (chapter r) c
                         && int_eq (verse r) (Some v)) verses).
Proof.
  intros Hk Hv. unfold lookup_json. rewrite Hk. simpl.
  apply Z.eqb_neq in Hv. now rewrite Hv.
Qed.

Lemma lookup_sqlite_verse (rows : list VerseRecord) (key b : string)
      (c : option Z) (v : Z) :
  split_key key = Ok (Some (b, c, Some v)) -> v <> 0%Z ->
  binds c && binds (Some v) = true ->
  lookup_sqlite rows key
  = Ok (filter (fun r => (book r =? b)%string && int_eq (chapter r) c
                         && int_eq (verse r) (Some v)) rows).
Proof.
  intros Hk Hv Hb. unfold lookup_sqlite. rewrite Hk.
  cbn [bind truthy_int]. apply Z.eqb_neq in Hv. rewrite Hv. cbn [negb].
  now rewrite Hb.
Qed.

Lemma filter_unique {A B : Type} (f : A -> B) (p : A -> bool) (k : B)
      (l : list A) :
  NoDup (map f l) ->
  (forall x, In x l -> p x = true -> f x = k) ->
  filter p l = [] \/ exists x, filter p l = [x].
Proof.
  induction l as [|x l IH]; simpl; intros Hnd Hp; [now left |].
  inversion Hnd as [|? ? Hx Hnd']; subst.
  destruct (p x) eqn:Hpx.
  - right. exists x. f_equal.
    destruct (filter p l) as [|y l'] eqn:Hf; [reflexivity |].
    exfalso. apply Hx.
    assert (Hy : In y (filter p l)) by (rewrite Hf; now left).
    apply filter_In in Hy as [Hy Hpy].
    rewrite (Hp x (or_introl eq_refl) Hpx), <- (Hp y (or_intror Hy) Hpy).
    now apply in_map.
  - apply IH; [assumption |]. intros y Hy. apply Hp. now right.
Qed.

(** A fully specified key with a verse that is not zero: both adapters
    return nothing or the one record of that book, chapter and verse. *)
Lemma lookup_verse_unique (verses : list VerseRecord) (key b : string)
      (c v : Z) :
  split_key key = Ok (Some (b, Some c, Some v)) -> v <> 0%Z ->
  unique_keys verses ->
  exists result,
    lookup_json verses key = Ok result
    /\ (binds (Some c) && binds (Some v) = true ->
        lookup_sqlite verses key = Ok result)
    /\ (result = []
        \/ exists r, result = [r] /\ In r verses
                     /\ book r = b /\ chapter r = c /\ verse r = v).
Proof.
  intros Hk Hv Hu. eexists.
  split; [exact (lookup_json_verse verses key b (Some c) v Hk Hv) |].
  split; [exact (lookup_sqlite_verse verses key b (Some c) v Hk Hv) |].
  match goal with |- filter ?p _ = _ \/ _ => set (P := p) end.
  assert (HP : forall r, P r = true ->
                         book r = b /\ chapter r = c /\ verse r = v).
  { intros r H. unfold P in H.
    apply andb_prop in H as [H H3]. apply andb_prop in H as [H1 H2].
    apply String.eqb_eq in H1. apply int_eq_Some in H2, H3. auto. }
  destruct (filter_unique (fun r => (book r, chapter r, verse r)) P
              (b, c, v) verses Hu) as [H | [r H]].
  - intros r _ Hr. destruct (HP r Hr) as (-> & -> & ->). reflexivity.
  - now left.
  - right. exists r. split; [assumption |].
    assert (Hr : In r (filter P verses)) by (rewrite H; now left).
    apply filter_In in Hr as [Hr Hpr]. split; [assumption | now apply HP].
Qed.

(* ================================================================== *)
(** * Rendering and the commands *)
(* ================================================================== *)

(** Without keywords every row is written as it is. *)
Lemma render_rows_no_keywords (T : Terminal) (color : bool)
      (rows : list VerseRecord) :
  render_rows T None color rows
  = (flat_map (fun row => [Secho (heading row) true false color;
                           Echo (text row)]) rows,
     Ok tt).
Proof.
  induction rows as [|row rows IH]; simpl; [reflexivity |].
  now rewrite IH.
Qed.

Lemma render_per_output_lookup (w : World) (output : string)
      (rows : list VerseRecord) :
  snd (render_per_output w output None rows) = Ok tt.
Proof.
  unfold render_per_output, render_plain. simpl.
  destruct (output =? "plain")%string; [now rewrite render_rows_no_keywords |].
  now destruct (output =? "json")%string.
Qed.

Lemma finish_empty (render : list VerseRecord -> io) (msg : string) :
  finish (Some (Ok [])) render msg = ([], Raise (UsageError msg)).
Proof. reflexivity. Qed.

Lemma finish_found (render : list VerseRecord -> io) (msg : string)
      (rows : list VerseRecord) :
  rows <> [] -> finish (Some (Ok rows)) render msg = render rows.
Proof. destruct rows; [congruence | reflexivity]. Qed.

(** [lookup] on a source with a recognised name, when the adapter returns
    [rows]. *)
Lemma existing_path_some (w : World) (filename : string)
      (verses : list VerseRecord) (command : list VerseRecord -> io) :
  fs w filename = Some verses ->
  existing_path w filename command = command verses.
Proof. intros H. unfold existing_path. now rewrite H. Qed.

Lemma existing_path_none (w : World) (filename : string)
      (command : list VerseRecord -> io) :
  fs w filename = None ->
  existing_path w filename command = ([], Raise (BadParameter "filename")).
Proof. intros H. unfold existing_path. now rewrite H. Qed.

Lemma lookup_outcome (w : World) (filename key output : string)
      (verses rows : list VerseRecord) :
  fs w filename = Some verses ->
  (PyStr.endswith filename "json" = true
   /\ lookup_json verses key = Ok rows)
  \/ (PyStr.endswith filename "json" = false
      /\ PyStr.endswith filename "sqlite" = true
      /\ lookup_sqlite verses key = Ok rows) ->
  (rows = [] ->
   lookup w filename key output
   = ([], Raise (UsageError (key ++ " not found"))))
  /\ (rows <> [] ->
      lookup w filename key output = render_per_output w output None rows
      /\ exit_status (snd (lookup w filename key output)) = Some 0%Z).
Proof.
  intros Hfs H. unfold lookup. rewrite (existing_path_some _ _ _ _ Hfs).
  assert (E : (if PyStr.endswith filename "json"
               then Some (lookup_json verses key)
               else if PyStr.endswith filename "sqlite"
                    then Some (lookup_sqlite verses key)
                    else None) = Some (Ok rows)).
  { destruct H as [[-> ->] | (-> & -> & ->)]; reflexivity. }
  rewrite E. split.
  - intros ->. apply finish_empty.
  - intros Hne. rewrite finish_found by assumption.
    now rewrite render_per_output_lookup.
Qed.

(** [search] when the adapter finds nothing. *)
Lemma search_not_found (w : World) (filename : string)
      (verses : list VerseRecord) (keywords : list string)
      (output : string) :
  fs w filename = Some verses ->
  (PyStr.endswith filename "json" = true
   /\ search_json verses (PyStr.join " " keywords) = [])
  \/ (PyStr.endswith filename "json" = false
      /\ PyStr.endswith filename "sqlite" = true
      /\ search_sqlite (fts w) verses (PyStr.join " " keywords)
         = Ok []) ->
  search w filename keywords output
  = ([], Raise (UsageError ("No matches found for: "
                            ++ PyStr.join " " keywords))).
Proof.
  intros Hfs H. unfold search. rewrite (existing_path_some _ _ _ _ Hfs).
  destruct H as [[-> ->] | (-> & -> & ->)]; reflexivity.
Qed.

Lemma filter_keywords_single (arrange : list string -> list string)
      (x : string) :
  lawful arrange -> survives x = true -> filter_keywords arrange [x] = [x].
Proof.
  intros Harr Hx. apply Permutation_length_1_inv. symmetry.
  etransitivity; [apply (filter_keywords_perm arrange [x] Harr) |].
  simpl. now rewrite Hx.
Qed.

(** No file name ends in both suffixes. *)
Lemma last_char_app (p t : string) :
  t <> "" -> last_char (p ++ t) = last_char t.
Proof.
  intros Ht. induction p as [|c p IH]; [reflexivity |].
  simpl. rewrite IH. destruct (p ++ t) eqn:E; [| reflexivity].
  apply sapp_eq_nil in E as [_ E]. congruence.
Qed.

Lemma json_not_sqlite (filename : string) :
  PyStr.endswith filename "sqlite" = true ->
  PyStr.endswith filename "json" = false.
Proof.
  intros H. apply endswith_iff in H as [p ->].
  apply not_true_iff_false. intros H.
  apply endswith_iff in H as [q H].
  apply (f_equal last_char) in H.
  rewrite !last_char_app in H by discriminate. discriminate.
Qed.

(* ================================================================== *)
(** * Highlighting with keywords that are plain words *)
(* ================================================================== *)

Lemma repeat_is_special (c : ascii) :
  Sub.repeat_char c = true -> Sub.special c = true.
Proof.
  destruct c as [[] [] [] [] [] [] [] []]; vm_compute; congruence.
Qed.

Lemma compile_literal (pattern : string) :
  Sub.literal pattern = true -> Sub.compile pattern = Ok pattern.
Proof.
  intros H. unfold Sub.compile. rewrite H.
  destruct pattern as [|c p]; [reflexivity |]. simpl.
  unfold Sub.literal in H. simpl in H. apply andb_prop in H as [Hc _].
  destruct (Sub.repeat_char c) eqn:Hr; [| reflexivity].
  apply repeat_is_special in Hr. now rewrite Hr in Hc.
Qed.

Lemma colorize_matches_literal (T : Terminal) (keywords : list string) :
  plain_markers T ->
  Forall (fun k => Sub.literal k = true) keywords ->
  forall s, exists s', colorize_matches T s keywords = Ok s'.
Proof.
  intros [Hr Hn]. induction 1 as [|k keywords Hk _ IH]; intros s; simpl.
  - now exists s.
  - unfold Sub.re_sub. rewrite (compile_literal k Hk), Hr, Hn. simpl.
    apply IH.
Qed.

Lemma render_rows_literal (T : Terminal) (keywords : option (list string))
      (color : bool) (rows : list VerseRecord) :
  plain_markers T ->
  Forall (fun k => Sub.literal k = true) (keywords_list keywords) ->
  snd (render_rows T keywords color rows) = Ok tt.
Proof.
  intros HT Hk. induction rows as [|row rows IH]; simpl; [reflexivity |].
  destruct (truthy_keywords keywords).
  - destruct (colorize_matches_literal T _ HT Hk (text row)) as [s' ->].
    now destruct (render_rows T keywords color rows).
  - now destruct (render_rows T keywords color rows).
Qed.

Lemma render_plain_literal (arrange : list string -> list string)
      (T : Terminal) (rows : list VerseRecord) (keywords : list string)
      (color : bool) :
  lawful arrange -> plain_markers T ->
  Forall (fun k => Sub.literal k = true) keywords ->
  snd (render_plain arrange T rows (Some keywords) color) = Ok tt.
Proof.
  intros Harr HT Hk. unfold render_plain.
  apply render_rows_literal; [assumption |].
  destruct (truthy_keywords (Some keywords)); [| assumption].
  simpl. apply Forall_forall. intros k Hin.
  apply (filter_keywords_In arrange keywords k Harr) in Hin as [Hin _].
  now apply (proj1 (Forall_forall _ _) Hk).
Qed.

(** [search] with a result and keywords that are plain words: the rows
    are rendered and the process ends normally. *)
Lemma search_found_literal (w : World) (filename : string)
      (verses : list VerseRecord) (keywords : list string)
      (output : string) (rows : list VerseRecord) :
  fs w filename = Some verses ->
  (PyStr.endswith filename "json" = true
   /\ search_json verses (PyStr.join " " keywords) = rows)
  \/ (PyStr.endswith filename "json" = false
      /\ PyStr.endswith filename "sqlite" = true
      /\ search_sqlite (fts w) verses (PyStr.join " " keywords)
         = Ok rows) ->
  rows <> [] ->
  lawful (hash_order w) -> plain_markers (term w) ->
  Forall (fun k => Sub.literal k = true)
         (PyStr.split (PyStr.join " " keywords)) ->
  search w filename keywords output
  = render_per_output w output
      (Some (filter_keywords (hash_order w)
                             (PyStr.split (PyStr.join " " keywords))))
      rows
  /\ exit_status (snd (search w filename keywords output)) = Some 0%Z.
Proof.
  intros Hfs H Hne Harr HT Hk. unfold search.
  rewrite (existing_path_some _ _ _ _ Hfs).
  assert (E : (if PyStr.endswith filename "json"
               then Some (Ok (search_json verses
                                          (PyStr.join " " keywords)))
               else if PyStr.endswith filename "sqlite"
                    then Some (search_sqlite (fts w) verses
                                             (PyStr.join " " keywords))
                    else None) = Some (Ok rows)).
  { destruct H as [[-> ->] | (-> & -> & ->)]; reflexivity. }
  rewrite E, finish_found by assumption. split; [reflexivity |].
  unfold render_per_output.
  destruct (output =? "plain")%string.
  - rewrite render_plain_literal; try assumption; [reflexivity |].
    apply Forall_forall. intros k Hin.
    apply (filter_keywords_In (hash_order w) _ k Harr) in Hin as [Hin _].
    now apply (proj1 (Forall_forall _ _) Hk).
  - now destruct (output =? "json")%string.
Qed.

(** What [re.sub] leaves of the subject: with empty markers, a pattern
    that is a plain word gives the subject back. *)
Lemma scan_skip (w : string) (repl : string -> string) (count n : Z)
      (a : string) : forall t,
  Sub.scan w repl count n (String.length a) (a ++ t)
  = Sub.scan w repl count n 0 t.
Proof.
  induction a as [|c a IH]; intros t; [reflexivity |]. simpl. apply IH.
Qed.

Lemma scan_unmarked (w : string) (count : Z) :
  w <> "" ->
  forall (len : nat) (s : string) (n : Z),
    String.length s <= len ->
    Sub.scan w (fun m => "" ++ m ++ "") count n 0 s = s.
Proof.
  intros Hw. induction len as [|len IH]; intros s n Hlen.
  - destruct s; [| simpl in Hlen; lia]. simpl.
    now destruct (Sub.may_replace count n && PyStr.is_empty w).
  - destruct s as [|c s'].
    + simpl. now destruct (Sub.may_replace count n && PyStr.is_empty w).
    + cbn [Sub.scan]. simpl in Hlen.
      destruct (Sub.may_replace count n
                && String.prefix w (String c s')) eqn:Hm.
      * apply andb_prop in Hm as [_ Hp].
        apply prefix_iff in Hp as [t Ht].
        destruct w as [|d w']; [congruence |]. simpl in Ht.
        injection Ht as -> ->.
        cbn [PyStr.is_empty String.length Nat.sub].
        rewrite Nat.sub_0_r, scan_skip, sapp_nil_r.
        rewrite sapp_length in Hlen.
        rewrite IH by lia. reflexivity.
      * rewrite IH by lia. reflexivity.
Qed.

Lemma re_sub_unmarked (pattern s : string) (count : Z) :
  pattern <> "" -> Sub.literal pattern = true ->
  Sub.re_sub pattern "" "" s count = Ok s.
Proof.
  intros Hne Hlit. unfold Sub.re_sub.
  rewrite (compile_literal pattern Hlit).
  change (PyStr.contains "\" "") with false. cbn [orb]. f_equal.
  now apply (scan_unmarked pattern count Hne (String.length s)).
Qed.

(** [int] reads decimal digits by position. *)
Lemma int_from_app (a b : string) : forall acc,
  PyStr.int_from acc (a ++ b) = PyStr.int_from (PyStr.int_from acc a) b.
Proof. induction a as [|c a IH]; intros acc; simpl; auto. Qed.

Lemma value_snoc (s : string) (d : ascii) :
  PyStr.value (s ++ String d "")
  = (10 * PyStr.value s + PyStr.digit_val d)%Z.
Proof. unfold PyStr.value. now rewrite int_from_app. Qed.

(** [int] undoes [str] on the integers that are not negative. *)
Lemma int_from_uint_acc (d : Decimal.uint) : forall acc : positive,
  PyStr.int_from (Z.pos acc) (NilEmpty.string_of_uint d)
  = Z.pos (Pos.of_uint_acc d acc).
Proof.
  induction d as [| d IH | d IH | d IH | d IH | d IH | d IH | d IH | d IH
                  | d IH | d IH]; intros acc;
    cbn [NilEmpty.string_of_uint PyStr.int_from Pos.of_uint_acc];
    [reflexivity | ..];
    rewrite <- IH; f_equal;
    match goal with
    | |- context [PyStr.digit_val ?c] =>
        let v := eval vm_compute in (PyStr.digit_val c) in
        change (PyStr.digit_val c) with v
    end; lia.
Qed.

Lemma int_from_uint (d : Decimal.uint) :
  PyStr.int_from 0 (NilEmpty.string_of_uint d) = Z.of_N (Pos.of_uint d).
Proof.
  induction d as [| d IH | d IH | d IH | d IH | d IH | d IH | d IH | d IH
                  | d IH | d IH]; simpl;
    [reflexivity | exact IH | ..]; apply int_from_uint_acc.
Qed.

Lemma value_of_int (n : Z) : (0 <= n)%Z -> PyStr.value (PyStr.of_int n) = n.
Proof.
  intros Hn. unfold PyStr.value, PyStr.of_int.
  destruct n as [|p|p]; [reflexivity | | lia].
  simpl. now rewrite int_from_uint, DecimalPos.Unsigned.of_to.
Qed.

(** ** Decimal numerals *)

Lemma string_of_uint_digits (d : Decimal.uint) :
  PyStr.all PyStr.isdigit (NilEmpty.string_of_uint d) = true.
Proof.
  induction d as [| d IH | d IH | d IH | d IH | d IH | d IH | d IH | d IH
                  | d IH | d IH]; simpl; [reflexivity | ..]; exact IH.
Qed.

Lemma string_of_uint_nonempty (d : Decimal.uint) :
  d <> Decimal.Nil -> NilEmpty.string_of_uint d <> "".
Proof. destruct d; simpl; [congruence | ..]; discriminate. Qed.

Lemma of_int_digits (n : Z) :
  (0 <= n)%Z ->
  PyStr.of_int n <> "" /\ PyStr.all PyStr.isdigit (PyStr.of_int n) = true.
Proof.
  intros Hn. unfold PyStr.of_int.
  destruct n as [|p|p]; [split; [discriminate | reflexivity] | | lia].
  simpl. split; [| apply string_of_uint_digits].
  apply string_of_uint_nonempty, DecimalPos.Unsigned.to_uint_nonnil.
Qed.

Lemma int_from_nonneg (s : string) : forall acc,
  (0 <= acc)%Z -> PyStr.all PyStr.isdigit s = true ->
  (0 <= PyStr.int_from acc s)%Z.
Proof.
  induction s as [|c s IH]; intros acc Hacc Hs; [assumption |].
  cbn [PyStr.int_from PyStr.all] in *.
  apply andb_prop in Hs as [Hc Hs]. apply IH; [| assumption].
  unfold PyStr.isdigit in Hc. apply andb_prop in Hc as [Hc _].
  apply N.leb_le in Hc. unfold PyStr.digit_val. lia.
Qed.

(** A numeral of [n] digits after a first part worth [acc] writes at
    least [acc * 10 ^ n]. *)
Lemma int_from_lower (s : string) : forall acc,
  (0 <= acc)%Z -> PyStr.all PyStr.isdigit s = true ->
  (acc * 10 ^ Z.of_nat (String.length s) <= PyStr.int_from acc s)%Z.
Proof.
  induction s as [|c s IH]; intros acc Hacc Hs.
  - simpl. lia.
  - cbn [PyStr.int_from PyStr.all String.length] in *.
    apply andb_prop in Hs as [Hc Hs].
    unfold PyStr.isdigit in Hc. apply andb_prop in Hc as [Hc _].
    apply N.leb_le in Hc.
    assert (Hd : (0 <= PyStr.digit_val c)%Z)
      by (unfold PyStr.digit_val; lia).
    specialize (IH (10 * acc + PyStr.digit_val c)%Z ltac:(lia) Hs).
    rewrite Nat2Z.inj_succ, Z.pow_succ_r by lia.
    assert (Hp : (0 <= 10 ^ Z.of_nat (String.length s))%Z)
      by (apply Z.pow_nonneg; lia).
    nia.
Qed.

(** [str] writes no leading zero. *)
Lemma to_uint_normal (p : positive) :
  Decimal.unorm (Pos.to_uint p) = Pos.to_uint p.
Proof.
  rewrite <- DecimalN.Unsigned.to_of. unfold N.of_uint.
  now rewrite DecimalPos.Unsigned.of_to.
Qed.

Lemma of_int_lower (n : Z) :
  (0 < n)%Z ->
  (10 ^ (Z.of_nat (String.length (PyStr.of_int n)) - 1) <= n)%Z.
Proof.
  intros Hn. destruct n as [|p|p]; try lia.
  pose proof (value_of_int (Z.pos p) ltac:(lia)) as Hv.
  revert Hv. unfold PyStr.of_int, PyStr.value. simpl Z.to_int.
  cbn [NilEmpty.string_of_int].
  pose proof (to_uint_normal p) as Hnorm.
  pose proof (DecimalPos.Unsigned.to_uint_nonnil p) as Hnil.
  pose proof (DecimalPos.Unsigned.of_to p) as Hof.
  destruct (Pos.to_uint p) as [| d | d | d | d | d | d | d | d | d | d];
    [congruence | | ..].
  { exfalso. unfold Decimal.unorm in Hnorm. rewrite DecimalFacts.nzhead_D0 in Hnorm.
    destruct (Decimal.nzhead d) eqn:E;
      try (now apply (DecimalFacts.nzhead_nonzero d d); rewrite E).
    injection Hnorm as <-. discriminate Hof. }
  all: cbn [NilEmpty.string_of_uint PyStr.int_from String.length];
    intros <-;
    rewrite Nat2Z.inj_succ;
    replace (Z.succ (Z.of_nat (String.length (NilEmpty.string_of_uint d)))
             - 1)%Z
      with (Z.of_nat (String.length (NilEmpty.string_of_uint d))) by lia;
    match goal with
    | |- (_ <= PyStr.int_from ?a _)%Z =>
        let v := eval vm_compute in a in
        change a with v;
        pose proof (int_from_lower (NilEmpty.string_of_uint d) v
                      ltac:(lia) (string_of_uint_digits d))
    end;
    assert (0 <= 10 ^ Z.of_nat (String.length (NilEmpty.string_of_uint d)))%Z
      by (apply Z.pow_nonneg; lia);
    nia.
Qed.

(** An integer below [10 ^ k] is written with at most [k] digits. *)
Lemma of_int_length (n : Z) (k : nat) :
  0 < k -> (0 <= n < 10 ^ Z.of_nat k)%Z ->
  String.length (PyStr.of_int n) <= k.
Proof.
  intros Hk [Hn Hlt].
  destruct (Z.eq_dec n 0) as [-> | Hn0]; [simpl; lia |].
  pose proof (of_int_lower n ltac:(lia)) as Hlow.
  destruct (Nat.le_gt_cases (String.length (PyStr.of_int n)) k) as [H | H];
    [assumption | exfalso].
  assert (10 ^ Z.of_nat k
          <= 10 ^ (Z.of_nat (String.length (PyStr.of_int n)) - 1))%Z
    by (apply Z.pow_le_mono_r; lia).
  lia.
Qed.

(** [int(str(n))] is [n] for the integers that [str] and [int] convert. *)
Lemma int_of_int (n : Z) :
  (0 <= n < 10 ^ Z.of_nat PyStr.max_str_digits)%Z ->
  PyStr.int (PyStr.of_int n) = Ok n.
Proof.
  intros Hn. destruct (of_int_digits n (proj1 Hn)) as [Hne Hd].
  rewrite int_digits; [now rewrite value_of_int | assumption.. |].
  apply of_int_length; [unfold PyStr.max_str_digits; lia | assumption].
Qed.

(* ================================================================== *)
(** * Examples *)
(* ================================================================== *)

Example split_key_genesis :
  split_key "Genesis 1:1" = Ok (Some ("Genesis", Some 1%Z, Some 1%Z)).
Proof. reflexivity. Qed.

Example split_key_leading_zeros :
  split_key "Psalms 119:004" = Ok (Some ("Psalms", Some 119%Z, Some 4%Z)).
Proof. reflexivity. Qed.

(** The book group is greedy: of two blanks before the chapter, the first
    stays in the book. *)
Example split_key_two_blanks :
  split_key "Genesis  1:1" = Ok (Some ("Genesis ", Some 1%Z, Some 1%Z)).
Proof. reflexivity. Qed.

(** The patterns are not anchored at the end of the key. *)
Example split_key_trailing_text :
  split_key "Genesis 1 and 2" = Ok (Some ("Genesis 1 and", Some 2%Z, None))
  /\ split_key "Genesis 1:1-3" = Ok (Some ("Genesis", Some 1%Z, Some 1%Z))
  /\ split_key "Genesis 1:" = Ok (Some ("Genesis", Some 1%Z, None)).
Proof. repeat split. Qed.

(** A tab is no separator. *)
Example split_key_tab :
  split_key (String "G" (String (ascii_of_nat 9) "1:1"))
  = Ok (Some (String "G" (String (ascii_of_nat 9) "1"), None, None)).
Proof. reflexivity. Qed.

(** A blank at the head of the key belongs to the book. *)
Example split_key_leading_blank :
  split_key " 1" = Ok (Some (" 1", None, None)).
Proof. reflexivity. Qed.

Example split_examples :
  PyStr.split "  In the   beginning " = ["In"; "the"; "beginning"]
  /\ PyStr.split "" = []
  /\ PyStr.join " " ["In"; "the"; "beginning"] = "In the beginning".
Proof. repeat split. Qed.

Example re_sub_examples :
  Sub.re_sub "ab" "<" ">" "ababab" 0 = Ok "<ab><ab><ab>"
  /\ Sub.re_sub "ab" "<" ">" "ababab" IGNORECASE = Ok "<ab><ab>ab"
  /\ Sub.re_sub "ab" "<" ">" "ABab" IGNORECASE = Ok "AB<ab>"
  /\ Sub.re_sub "aa" "<" ">" "aaaaa" 0 = Ok "<aa><aa>a"
  /\ Sub.re_sub "*" "<" ">" "a*b" IGNORECASE = Raise ReError.
Proof. repeat split. Qed.

Example filter_keywords_example :
  filter_keywords insertion_order
                  ["light"; "AND"; "-dark"; "and"; "NOT"; "light"; "OR"]
  = ["light"; "and"].
Proof. reflexivity. Qed.

Example lookup_examples :
  lookup (Sample.world [Sample.genesis_1_1]) "kjv.json" "Genesis 1:1" "plain"
  = ([Secho "Genesis 1:1: " true false true;
      Echo "In the beginning God created the heaven and the earth."],
     Ok tt)
  /\ lookup (Sample.world [Sample.genesis_1_1]) "kjv.json" "Exodus 1:1" "plain"
     = ([], Raise (UsageError "Exodus 1:1 not found"))
  /\ lookup (Sample.world [Sample.genesis_1_1]) "kjv.json" "Genesis 1:1" "json"
     = ([PrintJson
           (JArr [JObj [("book", JStr "Genesis"); ("chapter", JInt 1);
                        ("verse", JInt 1);
                        ("text", JStr "In the beginning God created the heaven and the earth.")]])
           2],
        Ok tt).
Proof. repeat split. Qed.

Example search_example :
  search (Sample.world [Sample.genesis_1_1; Sample.genesis_1_2]) "kjv.json"
         ["beginning"] "plain"
  = ([Secho "Genesis 1:1: " true false true;
      Echo ("In the " ++ red xterm ++ "beginning" ++ normal xterm
            ++ " God created the heaven and the earth.")],
     Ok tt).
Proof. reflexivity. Qed.

(* ================================================================== *)
(** * The properties of the specification *)
(* ================================================================== *)

(** ** Highlighting *)

(** C1 (the code departs from the claim).  The claim: in plain mode every
    case-insensitive occurrence of each keyword is wrapped in the two
    markers.  The code hands [re.IGNORECASE] to [re.sub] as its [count]:
    matching stays case-sensitive and stops after two replacements.  With
    the keyword [light], the [Light] of Psalms 97:11 is written without
    markers, and of the three occurrences in Genesis 1:16 the third is
    written without markers. *)
Theorem highlight_misses_occurrences :
  forall arrange : list string -> list string,
    lawful arrange ->
    render_plain arrange xterm [Sample.psalms_97_11] (Some ["light"]) true
    = ([Secho "Psalms 97:11: " true false true;
        Echo "Light is sown for the righteous, and gladness for the upright in heart."],
       Ok tt)
    /\ render_plain arrange xterm [Sample.genesis_1_16] (Some ["light"]) true
       = ([Secho "Genesis 1:16: " true false true;
           Echo ("And God made two great "
                 ++ red xterm ++ "light" ++ normal xterm
                 ++ "s; the greater "
                 ++ red xterm ++ "light" ++ normal xterm
                 ++ " to rule the day, and the lesser light to rule the night: he made the stars also.")],
          Ok tt).
Proof.
  intros arrange Harr. unfold render_plain. simpl truthy_keywords.
  cbv iota. simpl keywords_list.
  rewrite (filter_keywords_single arrange "light" Harr eq_refl).
  split; vm_compute; reflexivity.
Qed.

Lemma highlight_misses_occurrences_witness :
  lawful insertion_order
  /\ render_plain insertion_order xterm [Sample.psalms_97_11]
                  (Some ["light"]) true
     = ([Secho "Psalms 97:11: " true false true;
         Echo "Light is sown for the righteous, and gladness for the upright in heart."],
        Ok tt).
Proof.
  split; [exact insertion_order_lawful |].
  exact (proj1 (highlight_misses_occurrences insertion_order
                  insertion_order_lawful)).
Defined.

(** ** Key parser *)

(** C2 (as stated, refuted).  A key that is not empty and has neither of
    the two forms need not come back whole: [":3"] has no blank, hence
    neither form, and [split_key] returns nothing for it; ["John:3"] has
    no blank either and the book returned is ["John"], not the key.  And
    a key of the second form need not come back at all: with a chapter
    of 4301 digits [int] raises [ValueError]. *)
Lemma split_key_other_keys_counterexample :
  (":3" <> "" /\ PyStr.contains " " ":3" = false
   /\ split_key ":3" = Ok None)
  /\ (PyStr.contains " " "John:3" = false
      /\ split_key "John:3" = Ok (Some ("John", None, None))
      /\ "John" <> "John:3")
  /\ (PyStr.all PyStr.isdigit (PyStr.mul "1" 4301) = true
      /\ split_key ("Genesis " ++ PyStr.mul "1" 4301) = Raise ValueError).
Proof.
  split; [| split].
  - repeat split; try reflexivity; discriminate.
  - repeat split; try reflexivity; discriminate.
  - assert (Hd : PyStr.all PyStr.isdigit (PyStr.mul "1" 4301) = true)
      by (vm_compute; reflexivity).
    split; [exact Hd |].
    change ("Genesis " ++ PyStr.mul "1" 4301)
      with ("Genesis" ++ " " ++ PyStr.mul "1" 4301).
    rewrite split_key_book_chapter;
      [| discriminate | reflexivity | | exact Hd].
    + rewrite int_too_long; [reflexivity | exact Hd |].
      apply Nat.ltb_lt. vm_compute. reflexivity.
    + intros H. apply (f_equal String.length) in H.
      vm_compute in H. discriminate.
Qed.

(** C2 (amended).  For every key [Book ++ " " ++ C ++ ":" ++ V], with
    [Book] not empty, without a colon and not ending in a blank, and [C],
    [V] non-empty strings of decimal digits: when [C] and [V] have at
    most [max_str_digits] digits each, [split_key] returns [Book] with
    [C] and [V] as integers, and when one of them has more, it raises
    [ValueError].  For every key [Book ++ " " ++ C] of that kind it
    returns [Book], [C] as an integer and no verse when [C] has at most
    [max_str_digits] digits, and raises [ValueError] when it has more.
    And the keys that come back whole, as the book without chapter and
    verse, are exactly the keys that are not empty, have no colon and
    have, after their first character, no blank directly before a
    digit. *)
Theorem split_key_forms :
  (forall Book C V : string,
      Book <> "" -> PyStr.all not_colon Book = true ->
      PyStr.endswith Book " " = false ->
      C <> "" -> PyStr.all PyStr.isdigit C = true ->
      V <> "" -> PyStr.all PyStr.isdigit V = true ->
      (String.length C <= PyStr.max_str_digits
       /\ String.length V <= PyStr.max_str_digits ->
       split_key (Book ++ " " ++ C ++ ":" ++ V)
       = Ok (Some (Book, Some (PyStr.value C), Some (PyStr.value V))))
      /\ (PyStr.max_str_digits < String.length C
          \/ PyStr.max_str_digits < String.length V ->
          split_key (Book ++ " " ++ C ++ ":" ++ V) = Raise ValueError))
  /\ (forall Book C : string,
         Book <> "" -> PyStr.all not_colon Book = true ->
         PyStr.endswith Book " " = false ->
         C <> "" -> PyStr.all PyStr.isdigit C = true ->
         (String.length C <= PyStr.max_str_digits ->
          split_key (Book ++ " " ++ C)
          = Ok (Some (Book, Some (PyStr.value C), None)))
         /\ (PyStr.max_str_digits < String.length C ->
             split_key (Book ++ " " ++ C) = Raise ValueError))
  /\ (forall key : string,
         split_key key = Ok (Some (key, None, None))
         <-> key <> "" /\ PyStr.all not_colon key = true
             /\ blank_digit (PyStr.tail key) = false).
Proof.
  split; [| split].
  - intros Book C V HB HBc _ HC HCd HV HVd.
    pose proof (split_key_book_chapter_verse Book C V ""
                  HB HBc HC HCd HV HVd eq_refl) as E.
    rewrite (sapp_nil_r V) in E. rewrite E. split.
    + intros [HlC HlV]. now rewrite !int_digits.
    + intros [Hl | Hl].
      * now rewrite (int_too_long C).
      * destruct (int_digits_cases C HCd) as [-> | ->]; [| reflexivity].
        simpl. now rewrite (int_too_long V).
  - intros Book C HB HBc _ HC HCd.
    rewrite split_key_book_chapter by assumption. split.
    + intros Hl. now rewrite int_digits.
    + intros Hl. now rewrite int_too_long.
  - apply split_key_whole.
Qed.

Lemma split_key_forms_witness :
  split_key "1 John 3:16" = Ok (Some ("1 John", Some 3%Z, Some 16%Z))
  /\ split_key "Genesis 12" = Ok (Some ("Genesis", Some 12%Z, None))
  /\ split_key "Song of Solomon" = Ok (Some ("Song of Solomon", None, None))
  /\ split_key " 1" = Ok (Some (" 1", None, None)).
Proof.
  destruct split_key_forms as (H1 & H2 & H3).
  split; [| split; [| split]].
  - apply (H1 "1 John" "3" "16"); try (reflexivity || discriminate).
    unfold PyStr.max_str_digits. simpl. lia.
  - apply (H2 "Genesis" "12"); try (reflexivity || discriminate).
    unfold PyStr.max_str_digits. simpl. lia.
  - apply (H3 "Song of Solomon").
    repeat split; (reflexivity || discriminate).
  - apply (H3 " 1"). repeat split; (reflexivity || discriminate).
Defined.




(** ** Keyword filter *)

(** C3 (as stated, refuted).  Neither token of [["light"; "light"]] is an
    operator or begins with the negation marker, and yet one of the two
    is removed, whatever the order of the hash table: the tokens go
    through a set. *)
Lemma filter_keywords_drops_duplicates_counterexample :
  survives "light" = true
  /\ forall arrange : list string -> list string,
       lawful arrange ->
       filter_keywords arrange ["light"; "light"] = ["light"].
Proof.
  split; [reflexivity |]. intros arrange Harr.
  apply Permutation_length_1_inv. symmetry.
  exact (filter_keywords_perm arrange ["light"; "light"] Harr).
Qed.

(** C3 (amended).  For every token sequence, the tokens of the output of
    [filter_keywords] are exactly the input tokens that are not equal to
    [AND], [OR] or [NOT] and do not begin with [-]; each of them is there
    once; and filtering the output again gives the same tokens, up to the
    order in which the set is iterated. *)
Theorem filter_keywords_tokens :
  forall (arrange : list string -> list string) (keywords : list string),
    lawful arrange ->
    (forall x : string,
        In x (filter_keywords arrange keywords)
        <-> In x keywords
            /\ ~ (x = "AND" \/ x = "OR" \/ x = "NOT")
            /\ ~ (exists t, x = String "-" t))
    /\ NoDup (filter_keywords arrange keywords)
    /\ Permutation
         (filter_keywords arrange (filter_keywords arrange keywords))
         (filter_keywords arrange keywords).
Proof.
  intros arrange keywords Harr. split; [| split].
  - intros x. rewrite filter_keywords_In by assumption.
    now rewrite survives_iff.
  - now apply filter_keywords_NoDup.
  - now apply filter_keywords_again.
Qed.

Lemma filter_keywords_tokens_witness :
  lawful (by_hash first_code_mod8)
  /\ NoDup (filter_keywords (by_hash first_code_mod8)
                            ["light"; "AND"; "-dark"; "and"; "light"]).
Proof.
  split; [apply by_hash_lawful |].
  exact (proj1 (proj2 (filter_keywords_tokens
                         (by_hash first_code_mod8)
                         ["light"; "AND"; "-dark"; "and"; "light"]
                         (by_hash_lawful first_code_mod8)))).
Defined.

(** C4 (as stated, refuted).  The order of the output is the order in
    which the set is iterated.  In a table whose slots follow
    [first_code_mod8], [a] goes to slot 1 and [h] to slot 0: the tokens
    [a], [h] come out as [h], [a]. *)
Lemma filter_keywords_order_counterexample :
  lawful (by_hash first_code_mod8)
  /\ filter_keywords (by_hash first_code_mod8) ["a"; "h"] = ["h"; "a"].
Proof. split; [apply by_hash_lawful | reflexivity]. Qed.

(** C4 (amended).  For every token sequence, the output of
    [filter_keywords] is a rearrangement of the distinct surviving tokens
    taken in the order of their first occurrence; and when sets iterate
    in insertion order, the output is that list itself. *)
Theorem filter_keywords_order :
  forall (arrange : list string -> list string) (keywords : list string),
    lawful arrange ->
    Permutation (filter_keywords arrange keywords)
                (filter survives (insert_all [] keywords))
    /\ filter_keywords insertion_order keywords
       = filter survives (insert_all [] keywords).
Proof.
  intros arrange keywords Harr. split.
  - now apply filter_keywords_perm.
  - unfold filter_keywords, difference, pyset, insertion_order, survives.
    apply filter_filter.
Qed.

Lemma filter_keywords_order_witness :
  lawful (by_hash first_code_mod8)
  /\ Permutation (filter_keywords (by_hash first_code_mod8) ["a"; "h"; "a"])
                 (filter survives (insert_all [] ["a"; "h"; "a"])).
Proof.
  split; [apply by_hash_lawful |].
  exact (proj1 (filter_keywords_order (by_hash first_code_mod8)
                  ["a"; "h"; "a"] (by_hash_lawful first_code_mod8))).
Defined.

(** ** Lookup *)

(** C5 (the code departs from the claim).  The claim: a fully specified
    key never brings back a record of another book, chapter or verse.
    Both adapters test [if verse:], and the verse [0] is false: the key
    ["Genesis 1:0"] is fully specified, and both adapters answer with the
    whole first chapter, whose verses are 1 and 2. *)
Theorem lookup_verse_zero :
  split_key "Genesis 1:0" = Ok (Some ("Genesis", Some 1%Z, Some 0%Z))
  /\ lookup_json [Sample.genesis_1_1; Sample.genesis_1_2; Sample.genesis_3_9]
                 "Genesis 1:0"
     = Ok [Sample.genesis_1_1; Sample.genesis_1_2]
  /\ lookup_sqlite [Sample.genesis_1_1; Sample.genesis_1_2; Sample.genesis_3_9]
                   "Genesis 1:0"
     = Ok [Sample.genesis_1_1; Sample.genesis_1_2]
  /\ verse Sample.genesis_1_1 <> 0%Z
  /\ unique_keys [Sample.genesis_1_1; Sample.genesis_1_2; Sample.genesis_3_9].
Proof.
  repeat split; try reflexivity; try discriminate.
  unfold unique_keys. simpl.
  repeat constructor; simpl; intuition discriminate.
Qed.

(** ** Search in the flat file *)

(** C6.  [search_json] splits the query at white space: the tokens it
    works with are the maximal runs of characters of the query that are
    not white space.  It returns exactly the records, in the order of
    the source, whose text holds every token as a substring, each
    character compared as it is; when there is no such record it returns
    the empty list. *)
Theorem search_json_all_tokens :
  forall (verses : list VerseRecord) (query : string),
    (forall key : string, In key (PyStr.split query) <-> token_of query key)
    /\ search_json verses query
       = filter (fun v => forallb (fun key => PyStr.contains key (text v))
                                  (PyStr.split query))
                verses
    /\ (forall v : VerseRecord,
           In v (search_json verses query)
           <-> In v verses
               /\ forall key, token_of query key ->
                              exists p q, text v = p ++ key ++ q)
    /\ ((forall v, In v verses ->
                   exists key, token_of query key
                               /\ ~ exists p q, text v = p ++ key ++ q) ->
        search_json verses query = []).
Proof.
  intros verses query.
  assert (Hall : forall v,
             forallb (fun key => PyStr.contains key (text v))
                     (PyStr.split query) = true
             <-> forall key, token_of query key ->
                             exists p q, text v = p ++ key ++ q).
  { intros v. rewrite forallb_forall.
    split; intros H key Hkey; apply contains_iff, H; now apply split_In. }
  split; [intros key; apply split_In |].
  rewrite search_json_filter. split; [reflexivity | split].
  - intros v. now rewrite filter_In, Hall.
  - intros Hnone.
    destruct (filter _ verses) as [|v l] eqn:Hf; [reflexivity |].
    assert (Hv : In v (filter
                         (fun v => forallb
                                     (fun key => PyStr.contains key (text v))
                                     (PyStr.split query)) verses))
      by (rewrite Hf; now left).
    apply filter_In in Hv as [Hv Hm].
    destruct (Hnone v Hv) as (key & Hkey & Hno).
    elim Hno. now apply (proj1 (Hall v) Hm).
Qed.

Lemma search_json_all_tokens_witness :
  (token_of "God   created" "God" /\ token_of "God   created" "created")
  /\ In Sample.genesis_1_1
        (search_json [Sample.genesis_1_1; Sample.genesis_1_2] "God   created")
  /\ ~ In Sample.genesis_1_2
          (search_json [Sample.genesis_1_1; Sample.genesis_1_2]
                       "God   created")
  /\ search_json [Sample.genesis_1_1; Sample.genesis_1_2] "God   Adam" = [].
Proof.
  destruct (search_json_all_tokens [Sample.genesis_1_1; Sample.genesis_1_2]
              "God   created") as (Htok & _ & Hin & _).
  assert (HGod : token_of "God   created" "God").
  { apply (proj1 (Htok "God")). vm_compute. left. reflexivity. }
  assert (Hcreated : token_of "God   created" "created").
  { apply (proj1 (Htok "created")). vm_compute. right; left; reflexivity. }
  split; [split; assumption | split; [| split]].
  - apply (proj2 (Hin _)). split; [now left |]. intros key Hkey.
    apply (proj2 (Htok key)) in Hkey.
    change (PyStr.split "God   created") with ["God"; "created"] in Hkey.
    destruct Hkey as [<- | [<- | []]];
      apply contains_iff; vm_compute; reflexivity.
  - intros H. apply (proj1 (Hin _)) in H as [_ H].
    specialize (H "created" Hcreated). apply contains_iff in H.
    vm_compute in H. discriminate.
  - destruct (search_json_all_tokens
                [Sample.genesis_1_1; Sample.genesis_1_2] "God   Adam")
      as (Htok' & _ & _ & Hnone).
    apply Hnone. intros v Hv. exists "Adam". split.
    + apply (proj1 (Htok' "Adam")). vm_compute. right; left; reflexivity.
    + intros H. apply contains_iff in H.
      destruct Hv as [<- | [<- | []]]; vm_compute in H; discriminate.
Defined.

(** C10.  A query that is empty or made of white space only has no
    token, and [search_json] returns every record of the source. *)
Theorem search_json_blank_query :
  forall (verses : list VerseRecord) (query : string),
    PyStr.all PyStr.isspace query = true ->
    search_json verses query = verses.
Proof.
  intros verses query H. rewrite search_json_filter, split_blank by assumption.
  simpl. induction verses as [|v verses IH]; simpl; [reflexivity |].
  now rewrite IH.
Qed.

Lemma search_json_blank_query_witness :
  search_json [Sample.genesis_1_1; Sample.genesis_1_2]
              (String " " (String (ascii_of_nat 9) " "))
  = [Sample.genesis_1_1; Sample.genesis_1_2].
Proof.
  apply (search_json_blank_query [Sample.genesis_1_1; Sample.genesis_1_2]).
  reflexivity.
Defined.

(** ** Commands *)

(** C7 (the code departs from the claim).  The claim: when the adapter
    returns records they are rendered and the process exits with status
    zero.  [render_plain] hands every keyword to [re.sub] as a pattern.
    Searching a flat file for [?] finds Genesis 3:9, whose text ends in a
    question mark; the pattern [?] does not compile, [re.error] is raised
    before anything is written and the process exits with status 1. *)
Theorem search_question_mark_raises :
  forall (w : World) (filename : string),
    PyStr.endswith filename "json" = true ->
    fs w filename = Some [Sample.genesis_3_9] ->
    lawful (hash_order w) ->
    search_json [Sample.genesis_3_9] (PyStr.join " " ["?"])
    = [Sample.genesis_3_9]
    /\ search w filename ["?"] "plain" = ([], Raise ReError)
    /\ exit_status (snd (search w filename ["?"] "plain")) = Some 1%Z.
Proof.
  intros w filename Hjson Hfs Harr.
  assert (Hs : search_json [Sample.genesis_3_9] (PyStr.join " " ["?"])
               = [Sample.genesis_3_9]) by reflexivity.
  assert (Hrun : search w filename ["?"] "plain" = ([], Raise ReError)).
  { unfold search. rewrite (existing_path_some _ _ _ _ Hfs), Hjson, Hs.
    change (PyStr.split (PyStr.join " " ["?"])) with ["?"].
    rewrite (filter_keywords_single (hash_order w) "?" Harr eq_refl).
    unfold finish, render_per_output, render_plain. simpl.
    now rewrite (filter_keywords_single (hash_order w) "?" Harr eq_refl). }
  rewrite Hrun. auto.
Qed.

Lemma search_question_mark_raises_witness :
  search (Sample.world [Sample.genesis_3_9]) "kjv.json" ["?"] "plain"
  = ([], Raise ReError).
Proof.
  apply (search_question_mark_raises
           (Sample.world [Sample.genesis_3_9]) "kjv.json").
  - reflexivity.
  - reflexivity.
  - exact insertion_order_lawful.
Defined.

(** C9 (as stated, refuted).  A name with another suffix does not always
    end in a name error: click checks first that the path exists.  In a
    directory without files, [nosuch.txt] ends in neither suffix, and
    both commands end in click's error for a bad argument, with exit
    status 2, before any backend is looked for. *)
Lemma backend_by_suffix_counterexample :
  PyStr.endswith "nosuch.txt" "json" = false
  /\ PyStr.endswith "nosuch.txt" "sqlite" = false
  /\ lookup Sample.empty_directory "nosuch.txt" "Genesis 1:1" "plain"
     = ([], Raise (BadParameter "filename"))
  /\ search Sample.empty_directory "nosuch.txt" ["God"] "plain"
     = ([], Raise (BadParameter "filename"))
  /\ is_name_error (BadParameter "filename") = false
  /\ exit_status (Raise (BadParameter "filename")) = Some 2%Z.
Proof. repeat split. Qed.

(** C9 (amended).  For a path that exists, the backend is chosen by the
    last characters of the file name alone, no dot needed: a name that
    ends in [json] goes to the flat-file adapter, a name that ends in
    [sqlite] to the indexed store, and with any other name [result] is
    never bound, so that both commands end in an [UnboundLocalError], a
    [NameError] that nobody handles (exit status 1), and not in a usage
    error (exit status 2).  For a path that does not exist, whatever its
    name, both commands end in click's error for a bad argument (exit
    status 2) and no backend is chosen. *)
Theorem backend_by_suffix :
  forall (w : World) (filename key output : string) (keywords : list string),
    (forall verses : list VerseRecord,
        fs w filename = Some verses ->
        ((exists p, filename = p ++ "json") ->
         lookup w filename key output
         = finish (Some (lookup_json verses key))
                  (render_per_output w output None) (key ++ " not found")
         /\ search w filename keywords output
            = finish (Some (Ok (search_json verses
                                            (PyStr.join " " keywords))))
                     (render_per_output w output
                        (Some (filter_keywords (hash_order w)
                                 (PyStr.split (PyStr.join " " keywords)))))
                     ("No matches found for: " ++ PyStr.join " " keywords))
        /\ ((exists p, filename = p ++ "sqlite") ->
            lookup w filename key output
            = finish (Some (lookup_sqlite verses key))
                     (render_per_output w output None) (key ++ " not found")
            /\ search w filename keywords output
               = finish (Some (search_sqlite (fts w) verses
                                             (PyStr.join " " keywords)))
                        (render_per_output w output
                           (Some (filter_keywords (hash_order w)
                                    (PyStr.split
                                       (PyStr.join " " keywords)))))
                        ("No matches found for: "
                         ++ PyStr.join " " keywords))
        /\ (~ (exists p, filename = p ++ "json") ->
            ~ (exists p, filename = p ++ "sqlite") ->
            lookup w filename key output = ([], Raise UnboundLocalError)
            /\ search w filename keywords output
               = ([], Raise UnboundLocalError)
            /\ is_name_error UnboundLocalError = true
            /\ exit_status (Raise UnboundLocalError) = Some 1%Z
            /\ forall msg, exit_status (Raise (UsageError msg)) = Some 2%Z))
    /\ (fs w filename = None ->
        lookup w filename key output = ([], Raise (BadParameter "filename"))
        /\ search w filename keywords output
           = ([], Raise (BadParameter "filename"))
        /\ exit_status (Raise (BadParameter "filename")) = Some 2%Z).
Proof.
  intros w filename key output keywords. split.
  - intros verses Hfs. unfold lookup, search.
    rewrite !(existing_path_some _ _ _ _ Hfs). split; [| split].
    + intros H. apply endswith_iff in H. now rewrite H.
    + intros H. apply endswith_iff in H.
      now rewrite (json_not_sqlite filename H), H.
    + intros Hj Hs. rewrite <- endswith_iff in Hj, Hs.
      apply not_true_is_false in Hj, Hs.
      rewrite Hj, Hs. repeat split.
  - intros Hfs. unfold lookup, search.
    rewrite !(existing_path_none _ _ _ Hfs). repeat split.
Qed.

(** The two adapters are told apart by a verse that SQLite cannot bind:
    the flat file finds nothing, the indexed store raises. *)
Lemma backend_by_suffix_witness :
  lookup (Sample.world [Sample.genesis_1_1]) "versesjson" "Genesis 1:1" "plain"
  = ([Secho "Genesis 1:1: " true false true;
      Echo "In the beginning God created the heaven and the earth."],
     Ok tt)
  /\ lookup (Sample.world [Sample.genesis_1_1]) "versesjson"
            "Genesis 1:9223372036854775808" "plain"
     = ([], Raise (UsageError "Genesis 1:9223372036854775808 not found"))
  /\ lookup (Sample.world [Sample.genesis_1_1]) "versessqlite"
            "Genesis 1:9223372036854775808" "plain"
     = ([], Raise OverflowError)
  /\ lookup (Sample.world [Sample.genesis_1_1]) "verses.txt" "Genesis 1:1"
            "plain"
     = ([], Raise UnboundLocalError)
  /\ lookup Sample.empty_directory "verses.json" "Genesis 1:1" "plain"
     = ([], Raise (BadParameter "filename")).
Proof.
  split; [| split; [| split; [| split]]].
  - destruct (proj1 (backend_by_suffix (Sample.world [Sample.genesis_1_1])
                       "versesjson" "Genesis 1:1" "plain" [])
                [Sample.genesis_1_1] eq_refl) as (Hjson & _).
    rewrite (proj1 (Hjson (ex_intro _ "verses" eq_refl))). reflexivity.
  - destruct (proj1 (backend_by_suffix (Sample.world [Sample.genesis_1_1])
                       "versesjson" "Genesis 1:9223372036854775808"
                       "plain" [])
                [Sample.genesis_1_1] eq_refl) as (Hjson & _).
    rewrite (proj1 (Hjson (ex_intro _ "verses" eq_refl))).
    vm_compute. reflexivity.
  - destruct (proj1 (backend_by_suffix (Sample.world [Sample.genesis_1_1])
                       "versessqlite" "Genesis 1:9223372036854775808"
                       "plain" [])
                [Sample.genesis_1_1] eq_refl) as (_ & Hsqlite & _).
    rewrite (proj1 (Hsqlite (ex_intro _ "verses" eq_refl))).
    vm_compute. reflexivity.
  - destruct (proj1 (backend_by_suffix (Sample.world [Sample.genesis_1_1])
                       "verses.txt" "Genesis 1:1" "plain" [])
                [Sample.genesis_1_1] eq_refl) as (_ & _ & Hother).
    apply Hother; intros H; apply endswith_iff in H; discriminate.
  - apply (proj2 (backend_by_suffix Sample.empty_directory
                    "verses.json" "Genesis 1:1" "plain" [])).
    reflexivity.
Defined.

(* ================================================================== *)
(** * Further facts *)
(* ================================================================== *)

(** ** White space *)

Lemma split_from_space (a : string) : forall cur c b,
  PyStr.isspace c = true ->
  PyStr.split_from cur (a ++ String c b)
  = (PyStr.split_from cur a ++ PyStr.split_from "" b)%list.
Proof.
  induction a as [|d a IH]; intros cur c b Hc.
  - simpl. rewrite Hc. now destruct cur.
  - simpl. destruct (PyStr.isspace d).
    + destruct cur; simpl; now rewrite IH.
    + now apply IH.
Qed.

Lemma split_join_flat (l : list string) :
  PyStr.split (PyStr.join " " l) = flat_map PyStr.split l.
Proof.
  unfold PyStr.join, PyStr.split.
  induction l as [|x l IH]; [reflexivity |].
  destruct l as [|y l].
  - simpl. now rewrite app_nil_r.
  - change (String.concat " " (x :: y :: l))
      with (x ++ String " " (String.concat " " (y :: l))).
    rewrite split_from_space by reflexivity. now rewrite IH.
Qed.

(** ** Lookup *)

Lemma int_Ok (s : string) (n : Z) :
  PyStr.int s = Ok n -> n = PyStr.value s.
Proof.
  unfold PyStr.int. destruct (PyStr.is_empty s); [discriminate |].
  destruct (negb (PyStr.all PyStr.isdigit s)); [discriminate |].
  destruct (String.length s <=? PyStr.max_str_digits)%nat;
    [congruence | discriminate].
Qed.

(** When the numbers of the key can be bound, the two adapters do the
    same on the same records in the same order. *)
Lemma lookup_adapters_agree (rows : list VerseRecord) (key : string) :
  (forall b c v, split_key key = Ok (Some (b, c, v)) ->
                 binds c && binds v = true) ->
  lookup_sqlite rows key = lookup_json rows key.
Proof.
  intros Hbinds. unfold lookup_sqlite, lookup_json.
  destruct (split_key key) as [[[[b c] v]|]| |] eqn:Hk; try reflexivity.
  cbn [bind]. specialize (Hbinds b c v eq_refl).
  apply split_key_some in Hk as (Hb & _).
  destruct (truthy_int v); [now rewrite Hbinds |].
  apply andb_prop in Hbinds as [Hc _].
  destruct (truthy_int c); [now rewrite Hc |].
  destruct b; [congruence | reflexivity].
Qed.

(** Without that, the indexed store raises where the flat file
    answers. *)
Lemma lookup_adapters_differ :
  lookup_json [Sample.genesis_1_1] "Genesis 1:9223372036854775808" = Ok []
  /\ lookup_sqlite [Sample.genesis_1_1] "Genesis 1:9223372036854775808"
     = Raise OverflowError.
Proof. split; vm_compute; reflexivity. Qed.

Lemma split_key_reference (b : string) (c v : Z) (rest : string) :
  b <> "" -> PyStr.all not_colon b = true ->
  (0 <= c < 10 ^ Z.of_nat PyStr.max_str_digits)%Z ->
  (0 <= v < 10 ^ Z.of_nat PyStr.max_str_digits)%Z ->
  PyStr.starts PyStr.isdigit rest = false ->
  split_key (b ++ " " ++ PyStr.of_int c ++ ":" ++ PyStr.of_int v ++ rest)
  = Ok (Some (b, Some c, Some v)).
Proof.
  intros Hb Hbc Hc Hv Hrest.
  destruct (of_int_digits c (proj1 Hc)) as [Hc1 Hc2].
  destruct (of_int_digits v (proj1 Hv)) as [Hv1 Hv2].
  rewrite split_key_book_chapter_verse by assumption.
  now rewrite !int_of_int.
Qed.

Lemma unique_keys_inj (verses : list VerseRecord) (r r' : VerseRecord) :
  unique_keys verses -> In r verses -> In r' verses ->
  book r = book r' -> chapter r = chapter r' -> verse r = verse r' ->
  r = r'.
Proof.
  unfold unique_keys. induction verses as [|x verses IH]; [intros _ [] |].
  simpl. intros Hnd Hr Hr' Hb Hc Hv.
  inversion Hnd as [|? ? Hx Hnd']; subst.
  assert (Hin : forall y, In y verses ->
                          In (book y, chapter y, verse y)
                             (map (fun r => (book r, chapter r, verse r))
                                  verses)).
  { intros y Hy.
    exact (in_map (fun r => (book r, chapter r, verse r)) verses y Hy). }
  destruct Hr as [<- | Hr], Hr' as [<- | Hr'].
  - reflexivity.
  - elim Hx. rewrite Hb, Hc, Hv. now apply Hin.
  - elim Hx. rewrite <- Hb, <- Hc, <- Hv. now apply Hin.
  - now apply IH.
Qed.

(** Whatever the key, the flat-file lookup filters the source by a test
    that implies the book of the key. *)
Lemma lookup_json_filter (verses : list VerseRecord) (key b : string)
      (c v : option Z) :
  split_key key = Ok (Some (b, c, v)) ->
  exists p, lookup_json verses key = Ok (filter p verses)
            /\ forall r, In r (filter p verses) -> In r verses /\ book r = b.
Proof.
  intros Hk. unfold lookup_json. rewrite Hk. cbn [bind].
  assert (Hbook : forall (p : VerseRecord -> bool),
             (forall r, p r = true -> (book r =? b)%string = true) ->
             forall r, In r (filter p verses) ->
                       In r verses /\ book r = b).
  { intros p Hp r Hr. apply filter_In in Hr as [Hr Hpr].
    split; [assumption |]. now apply String.eqb_eq, Hp. }
  destruct (truthy_int v); [| destruct (truthy_int c)];
    eexists; (split; [reflexivity |]); apply Hbook; intros r Hr.
  - apply andb_prop in Hr as [Hr _]. now apply andb_prop in Hr.
  - now apply andb_prop in Hr.
  - exact Hr.
Qed.

(* ================================================================== *)
(** * Further properties of the program *)
(* ================================================================== *)

(** ** Key parser *)

(** X1.  Whatever [split_key] returns: the book is not empty, has no
    colon and begins the key; a verse never comes without a chapter; and
    chapter and verse are never negative. *)
Theorem split_key_result_shape :
  forall (key b : string) (c v : option Z),
    split_key key = Ok (Some (b, c, v)) ->
    (b <> "" /\ PyStr.all not_colon b = true /\ exists rest, key = b ++ rest)
    /\ (c = None -> v = None)
    /\ (forall n, c = Some n -> (0 <= n)%Z)
    /\ (forall n, v = Some n -> (0 <= n)%Z).
Proof.
  intros key b c v Hk. split; [now apply split_key_some in Hk |].
  revert Hk. unfold split_key.
  destruct (Re.re_match KEY_BOOK_CHAPTER_VERSE_REGEXP key) as [m|] eqn:H1.
  { apply match_book_chapter_verse_inv in H1
      as (b' & sp & c' & v' & t & _ & -> & _ & _ & [_ Hc] & [_ Hv]).
    simpl. destruct (PyStr.int c') as [nc| |] eqn:Ec; try discriminate.
    simpl. destruct (PyStr.int v') as [nv| |] eqn:Ev; try discriminate.
    apply int_Ok in Ec, Ev. subst nc nv.
    intros [= _ <- <-]. repeat split; try discriminate.
    - intros n [= <-]. now apply int_from_nonneg.
    - intros n [= <-]. now apply int_from_nonneg. }
  destruct (Re.re_match KEY_BOOK_CHAPTER_REGEXP key) as [m|] eqn:H2.
  { apply match_book_chapter_inv in H2
      as (b' & sp & c' & t & _ & -> & _ & _ & [_ Hc]).
    simpl. destruct (PyStr.int c') as [nc| |] eqn:Ec; try discriminate.
    apply int_Ok in Ec. subst nc.
    intros [= _ <- <-]. repeat split; try discriminate.
    intros n [= <-]. now apply int_from_nonneg. }
  destruct (Re.re_match KEY_BOOK_REGEXP key) as [m|]; [| discriminate].
  intros [= _ <- <-]. repeat split; discriminate.
Qed.

Lemma split_key_result_shape_witness :
  ("Genesis" <> "" /\ PyStr.all not_colon "Genesis" = true
   /\ exists rest, "Genesis 12" = "Genesis" ++ rest)
  /\ (Some 12%Z = None -> @None Z = None)
  /\ (forall n, Some 12%Z = Some n -> (0 <= n)%Z)
  /\ (forall n, @None Z = Some n -> (0 <= n)%Z).
Proof.
  apply (split_key_result_shape "Genesis 12" "Genesis" (Some 12%Z) None).
  reflexivity.
Defined.

(** X2.  The chapter-and-verse pattern is not anchored at the end of the
    key and its book group is greedy: after [Book], one blank, chapter
    digits, a colon and verse digits, whatever follows is ignored as long
    as it does not begin with a digit, and [Book] may itself hold blanks,
    also at its end.  With chapter and verse of at most [max_str_digits]
    digits each, the result is [Book] with the two numbers. *)
Theorem split_key_ignores_tail :
  forall Book C V rest : string,
    Book <> "" -> PyStr.all not_colon Book = true ->
    C <> "" -> PyStr.all PyStr.isdigit C = true ->
    V <> "" -> PyStr.all PyStr.isdigit V = true ->
    PyStr.starts PyStr.isdigit rest = false ->
    split_key (Book ++ " " ++ C ++ ":" ++ V ++ rest)
    = split_key (Book ++ " " ++ C ++ ":" ++ V)
    /\ (String.length C <= PyStr.max_str_digits ->
        String.length V <= PyStr.max_str_digits ->
        split_key (Book ++ " " ++ C ++ ":" ++ V ++ rest)
        = Ok (Some (Book, Some (PyStr.value C), Some (PyStr.value V)))).
Proof.
  intros Book C V rest HB HBc HC HCd HV HVd Hrest.
  rewrite split_key_book_chapter_verse by assumption.
  split.
  - pose proof (split_key_book_chapter_verse Book C V ""
                  HB HBc HC HCd HV HVd eq_refl) as E.
    rewrite (sapp_nil_r V) in E. now rewrite E.
  - intros HlC HlV. now rewrite !int_digits.
Qed.

Lemma split_key_ignores_tail_witness :
  split_key "1 John  3:16-18" = split_key "1 John  3:16"
  /\ split_key "1 John  3:16-18"
     = Ok (Some ("1 John ", Some 3%Z, Some 16%Z)).
Proof.
  destruct (split_key_ignores_tail "1 John " "3" "16" "-18") as [H1 H2];
    try (reflexivity || discriminate).
  split; [exact H1 |].
  apply H2; unfold PyStr.max_str_digits; simpl; lia.
Defined.

(** X3.  The heading that [render_plain] writes for a row parses back:
    when the book is not empty and has no colon and chapter and verse are
    not negative and have at most [max_str_digits] digits, [split_key]
    of the heading is the book, the chapter and the verse of the row. *)
Theorem heading_parses_back :
  forall row : VerseRecord,
    book row <> "" -> PyStr.all not_colon (book row) = true ->
    (0 <= chapter row < 10 ^ Z.of_nat PyStr.max_str_digits)%Z ->
    (0 <= verse row < 10 ^ Z.of_nat PyStr.max_str_digits)%Z ->
    split_key (heading row)
    = Ok (Some (book row, Some (chapter row), Some (verse row))).
Proof.
  intros row Hb Hbc Hc Hv. unfold heading.
  now apply split_key_reference.
Qed.

Lemma heading_parses_back_witness :
  split_key (heading Sample.psalms_97_11)
  = Ok (Some ("Psalms", Some 97%Z, Some 11%Z)).
Proof.
  apply (heading_parses_back Sample.psalms_97_11).
  - discriminate.
  - reflexivity.
  - split; [discriminate | vm_compute; reflexivity].
  - split; [discriminate | vm_compute; reflexivity].
Defined.

(** ** Lookup *)

(** X4.  In a source where book, chapter and verse identify a record,
    every record with a book that is not empty and has no colon, a
    chapter that is not negative and a positive verse, both of at most
    [max_str_digits] digits, is found by its own reference
    [book chapter:verse], alone, by the flat-file adapter; and by the
    indexed store as well when chapter and verse are SQLite integers. *)
Theorem lookup_finds_record :
  forall (verses : list VerseRecord) (r : VerseRecord),
    unique_keys verses -> In r verses ->
    book r <> "" -> PyStr.all not_colon (book r) = true ->
    (0 <= chapter r < 10 ^ Z.of_nat PyStr.max_str_digits)%Z ->
    (0 < verse r < 10 ^ Z.of_nat PyStr.max_str_digits)%Z ->
    let key := book r ++ " " ++ PyStr.of_int (chapter r) ++ ":"
               ++ PyStr.of_int (verse r) in
    lookup_json verses key = Ok [r]
    /\ ((chapter r < 2 ^ 63)%Z -> (verse r < 2 ^ 63)%Z ->
        lookup_sqlite verses key = Ok [r]).
Proof.
  intros verses r Hu Hr Hb Hbc Hc Hv key.
  assert (Hk : split_key key
               = Ok (Some (book r, Some (chapter r), Some (verse r)))).
  { unfold key. rewrite <- (sapp_nil_r (PyStr.of_int (verse r))).
    apply split_key_reference; (assumption || lia || reflexivity). }
  assert (Hv0 : verse r <> 0%Z) by lia.
  destruct (lookup_verse_unique verses key (book r) (chapter r) (verse r)
              Hk Hv0 Hu) as (result & Hj & Hs & Hres).
  assert (E : result = [r]).
  { destruct Hres as [-> | (r' & -> & Hr' & Hb' & Hc' & Hv')].
    - exfalso. rewrite (lookup_json_verse verses key _ _ _ Hk Hv0) in Hj.
      injection Hj as Hj.
      assert (Hin : In r []); [| exact Hin].
      rewrite <- Hj. apply filter_In. split; [assumption |]. simpl.
      now rewrite String.eqb_refl, !Z.eqb_refl.
    - f_equal. symmetry. now apply (unique_keys_inj verses r r'). }
  subst result. split; [assumption |].
  intros Hc63 Hv63. apply Hs. unfold binds.
  apply andb_true_intro. split; apply andb_true_intro; split;
    (apply Z.leb_le || apply Z.ltb_lt); lia.
Qed.

Lemma lookup_finds_record_witness :
  lookup_json [Sample.genesis_1_1; Sample.genesis_1_2; Sample.genesis_3_9]
              "Genesis 1:2"
  = Ok [Sample.genesis_1_2]
  /\ lookup_sqlite [Sample.genesis_1_1; Sample.genesis_1_2; Sample.genesis_3_9]
                   "Genesis 1:2"
     = Ok [Sample.genesis_1_2].
Proof.
  destruct (lookup_finds_record
              [Sample.genesis_1_1; Sample.genesis_1_2; Sample.genesis_3_9]
              Sample.genesis_1_2) as [Hj Hs].
  - unfold unique_keys. simpl.
    repeat constructor; simpl; intuition discriminate.
  - right. now left.
  - discriminate.
  - reflexivity.
  - split; [discriminate | vm_compute; reflexivity].
  - split; vm_compute; reflexivity.
  - split; [exact Hj |]. apply Hs; vm_compute; reflexivity.
Defined.

(** X5.  When the chapter and the verse read from the key are SQLite
    integers, the two adapters answer a lookup alike: on the same
    records in whatever order the store scans them, [lookup_sqlite]
    raises exactly when [lookup_json] raises, with the same error, and
    returns the same rows up to their order; on the same records in the
    same order the two return the same, and so the [lookup] command does
    the same on a [json] file and on a [sqlite] file that hold them. *)
Theorem lookup_backends_agree :
  forall (w : World) (verses rows : list VerseRecord) (key output : string)
         (flat indexed : string),
    (forall b c v, split_key key = Ok (Some (b, c, v)) ->
                   binds c && binds v = true) ->
    (Permutation rows verses ->
     (forall e, lookup_sqlite rows key = Raise e
                <-> lookup_json verses key = Raise e)
     /\ (forall result,
            lookup_json verses key = Ok result ->
            exists result', lookup_sqlite rows key = Ok result'
                            /\ Permutation result' result))
    /\ lookup_sqlite verses key = lookup_json verses key
    /\ ((exists p, flat = p ++ "json") ->
        (exists p, indexed = p ++ "sqlite") ->
        fs w flat = fs w indexed ->
        lookup w flat key output = lookup w indexed key output).
Proof.
  intros w verses rows key output flat indexed Hbinds.
  split; [| split; [now apply lookup_adapters_agree |]].
  - intros Hperm. rewrite (lookup_adapters_agree rows key Hbinds).
    unfold lookup_json.
    destruct (split_key key) as [[[[b c] v]|]| |]; cbn [bind].
    + destruct (truthy_int v); [| destruct (truthy_int c)];
        (split; [split; discriminate |]);
        intros result [= <-]; eexists; (split; [reflexivity |]);
        now apply filter_Permutation.
    + split; [reflexivity | discriminate].
    + split; [reflexivity | discriminate].
    + split; [reflexivity | discriminate].
  - intros Hj Hs Hfs. apply endswith_iff in Hj, Hs.
    unfold lookup, existing_path. rewrite <- Hfs.
    destruct (fs w flat) as [stored|]; [| reflexivity].
    rewrite Hj, (json_not_sqlite indexed Hs), Hs.
    now rewrite lookup_adapters_agree.
Qed.

Lemma lookup_backends_agree_witness :
  (exists result',
      lookup_sqlite [Sample.genesis_1_2; Sample.genesis_1_1] "Genesis 1"
      = Ok result'
      /\ Permutation result' [Sample.genesis_1_1; Sample.genesis_1_2])
  /\ lookup (Sample.world [Sample.genesis_1_1]) "kjv.json" "Genesis 1" "plain"
     = lookup (Sample.world [Sample.genesis_1_1]) "kjv.sqlite" "Genesis 1"
              "plain".
Proof.
  assert (Hbinds : forall b c v,
             split_key "Genesis 1" = Ok (Some (b, c, v)) ->
             binds c && binds v = true).
  { intros b c v H. vm_compute in H. injection H as <- <- <-. reflexivity. }
  destruct (lookup_backends_agree (Sample.world [Sample.genesis_1_1])
              [Sample.genesis_1_1; Sample.genesis_1_2]
              [Sample.genesis_1_2; Sample.genesis_1_1]
              "Genesis 1" "plain" "kjv.json" "kjv.sqlite" Hbinds)
    as (Hperm & _ & Hcmd).
  split.
  - apply (proj2 (Hperm (perm_swap _ _ []))). reflexivity.
  - apply Hcmd; [now exists "kjv." | now exists "kjv." | reflexivity].
Defined.

(** X6.  [lookup_json] raises [TypeError] exactly for the empty key and
    for the keys that begin with a colon (there [split_key] has nothing
    to unpack).  For every key that [split_key] parses it returns a
    filter of the source: records of the source, in the order of the
    source, that all carry the book parsed from the key; it does so for
    every other key of at most [max_str_digits] characters, and for a
    longer key it does so or raises the [ValueError] of [int]. *)
Theorem lookup_json_result :
  forall (verses : list VerseRecord) (key : string),
    (lookup_json verses key = Raise TypeError
     <-> key = "" \/ exists s, key = String ":" s)
    /\ (forall b c v,
           split_key key = Ok (Some (b, c, v)) ->
           exists p,
             lookup_json verses key = Ok (filter p verses)
             /\ forall r, In r (filter p verses) ->
                          In r verses /\ book r = b)
    /\ (key <> "" -> (forall s, key <> String ":" s) ->
        String.length key <= PyStr.max_str_digits ->
        exists b p,
          lookup_json verses key = Ok (filter p verses)
          /\ (exists rest, key = b ++ rest)
          /\ forall r, In r (filter p verses) -> In r verses /\ book r = b)
    /\ (lookup_json verses key = Raise TypeError
        \/ lookup_json verses key = Raise ValueError
        \/ exists p, lookup_json verses key = Ok (filter p verses)).
Proof.
  intros verses key. split; [| split; [| split]].
  - rewrite <- split_key_none. unfold lookup_json.
    destruct (split_key_cases key) as [Hk | [(b & c & v & Hk) | Hk]];
      rewrite Hk; cbn [bind].
    + tauto.
    + split; [| discriminate].
      destruct (truthy_int v); [discriminate |].
      destruct (truthy_int c); discriminate.
    + split; discriminate.
  - intros b c v Hk. exact (lookup_json_filter verses key b c v Hk).
  - intros Hne Hcolon Hlen.
    destruct (split_key_cases key) as [Hk | [(b & c & v & Hk) | Hk]].
    + apply split_key_none in Hk as [-> | [s ->]]; [congruence |].
      now elim (Hcolon s).
    + destruct (lookup_json_filter verses key b c v Hk) as (p & Hp & Hin).
      exists b, p. split; [assumption | split; [| assumption]].
      now apply split_key_some in Hk.
    + now elim (split_key_short key Hlen).
  - destruct (split_key_cases key) as [Hk | [(b & c & v & Hk) | Hk]].
    + left. unfold lookup_json. now rewrite Hk.
    + right. right.
      destruct (lookup_json_filter verses key b c v Hk) as (p & Hp & _).
      now exists p.
    + right. left. unfold lookup_json. now rewrite Hk.
Qed.

Lemma lookup_json_result_witness :
  exists b p,
    lookup_json [Sample.genesis_1_1; Sample.psalms_97_11] "Genesis 1"
    = Ok (filter p [Sample.genesis_1_1; Sample.psalms_97_11])
    /\ (exists rest, "Genesis 1" = b ++ rest)
    /\ forall r, In r (filter p [Sample.genesis_1_1; Sample.psalms_97_11]) ->
                 In r [Sample.genesis_1_1; Sample.psalms_97_11]
                 /\ book r = b.
Proof.
  apply (proj1 (proj2 (proj2 (lookup_json_result
                                [Sample.genesis_1_1; Sample.psalms_97_11]
                                "Genesis 1")))).
  - discriminate.
  - intros s. discriminate.
  - unfold PyStr.max_str_digits. simpl. lia.
Defined.

(** X7.  A key [Book C] whose chapter number is not zero and has at most
    [max_str_digits] digits brings back exactly the records of that book
    and chapter, and a key that is a bare book name (not empty, no colon,
    no blank directly before a digit after its first character) exactly
    the records of that book, in the order of the source. *)
Theorem lookup_chapter_and_book :
  forall verses : list VerseRecord,
    (forall Book C : string,
        Book <> "" -> PyStr.all not_colon Book = true ->
        C <> "" -> PyStr.all PyStr.isdigit C = true ->
        String.length C <= PyStr.max_str_digits ->
        PyStr.value C <> 0%Z ->
        lookup_json verses (Book ++ " " ++ C)
        = Ok (filter (fun r => (book r =? Book)%string
                               && (chapter r =? PyStr.value C)%Z) verses))
    /\ (forall Book : string,
           Book <> "" -> PyStr.all not_colon Book = true ->
           blank_digit (PyStr.tail Book) = false ->
           lookup_json verses Book
           = Ok (filter (fun r => (book r =? Book)%string) verses)).
Proof.
  intros verses. split.
  - intros Book C HB HBc HC HCd Hlen Hz. unfold lookup_json.
    rewrite split_key_book_chapter, int_digits by assumption. simpl.
    apply Z.eqb_neq in Hz. now rewrite Hz.
  - intros Book HB HBc Hbd. unfold lookup_json.
    now rewrite (proj2 (split_key_whole Book)).
Qed.

Lemma lookup_chapter_and_book_witness :
  lookup_json [Sample.genesis_1_1; Sample.genesis_3_9; Sample.psalms_97_11]
              "Genesis 3"
  = Ok [Sample.genesis_3_9]
  /\ lookup_json [Sample.genesis_1_1; Sample.genesis_3_9; Sample.psalms_97_11]
                 "Genesis"
     = Ok [Sample.genesis_1_1; Sample.genesis_3_9].
Proof.
  destruct (lookup_chapter_and_book
              [Sample.genesis_1_1; Sample.genesis_3_9; Sample.psalms_97_11])
    as [H1 H2].
  split.
  - apply (H1 "Genesis" "3"); try (reflexivity || discriminate).
    unfold PyStr.max_str_digits. simpl. lia.
  - apply (H2 "Genesis"); (reflexivity || discriminate).
Defined.

(** ** Search in the flat file *)

Lemma split_app_blank (q1 q2 : string) :
  PyStr.split (q1 ++ " " ++ q2) = (PyStr.split q1 ++ PyStr.split q2)%list.
Proof. unfold PyStr.split. now apply split_from_space. Qed.

(** X8.  Searching for two queries joined by a blank is searching the
    result of the first for the second; the order of the two does not
    matter, and a longer query never adds a record. *)
Theorem search_json_conjunction :
  forall (verses : list VerseRecord) (q1 q2 : string),
    search_json verses (q1 ++ " " ++ q2)
    = search_json (search_json verses q1) q2
    /\ search_json verses (q1 ++ " " ++ q2)
       = search_json verses (q2 ++ " " ++ q1)
    /\ incl (search_json verses (q1 ++ " " ++ q2)) (search_json verses q1).
Proof.
  intros verses q1 q2.
  assert (H : search_json verses (q1 ++ " " ++ q2)
              = search_json (search_json verses q1) q2).
  { rewrite !search_json_filter, split_app_blank, filter_filter.
    apply filter_ext. intros v. apply forallb_app. }
  split; [exact H | split].
  - rewrite !search_json_filter, !split_app_blank.
    apply filter_ext. intros v. rewrite !forallb_app. apply andb_comm.
  - rewrite H, (search_json_filter (search_json verses q1)).
    intros v Hv. now apply filter_In in Hv.
Qed.

(** X9.  [search] joins its arguments with blanks and [search_json]
    splits the query again: the tokens searched for are the words of all
    the arguments, so that two argument lists with the same words find
    the same records, however the words were grouped into arguments. *)
Theorem search_json_words :
  forall (verses : list VerseRecord) (keywords keywords' : list string),
    PyStr.split (PyStr.join " " keywords) = flat_map PyStr.split keywords
    /\ (flat_map PyStr.split keywords = flat_map PyStr.split keywords' ->
        search_json verses (PyStr.join " " keywords)
        = search_json verses (PyStr.join " " keywords')).
Proof.
  intros verses keywords keywords'. split; [apply split_join_flat |].
  intros H. rewrite !search_json_filter, !split_join_flat. now rewrite H.
Qed.

Lemma search_json_words_witness :
  search_json [Sample.genesis_1_1; Sample.genesis_1_2]
              (PyStr.join " " ["the  beginning"; "God"])
  = search_json [Sample.genesis_1_1; Sample.genesis_1_2]
                (PyStr.join " " ["the"; "beginning God"]).
Proof.
  apply (proj2 (search_json_words [Sample.genesis_1_1; Sample.genesis_1_2]
                  ["the  beginning"; "God"] ["the"; "beginning God"])).
  reflexivity.
Defined.

(** ** Keyword filter *)

(** X10.  The output of [filter_keywords] depends on the set of input
    tokens only: two token lists with the same members give the same
    output up to the order in which the set is iterated, whatever the
    order and the repetitions in the input. *)
Theorem filter_keywords_set :
  forall (arrange : list string -> list string)
         (keywords keywords' : list string),
    lawful arrange ->
    (forall x, In x keywords <-> In x keywords') ->
    Permutation (filter_keywords arrange keywords)
                (filter_keywords arrange keywords').
Proof.
  intros arrange keywords keywords' Harr Hsame.
  apply NoDup_Permutation; try now apply filter_keywords_NoDup.
  intros x. rewrite !filter_keywords_In by assumption.
  now rewrite Hsame.
Qed.

Lemma filter_keywords_set_witness :
  Permutation
    (filter_keywords (by_hash first_code_mod8) ["a"; "h"; "a"; "OR"])
    (filter_keywords (by_hash first_code_mod8) ["OR"; "h"; "h"; "a"]).
Proof.
  apply (filter_keywords_set (by_hash first_code_mod8)
           ["a"; "h"; "a"; "OR"] ["OR"; "h"; "h"; "a"]).
  - apply by_hash_lawful.
  - intros x. simpl. tauto.
Defined.

Lemma render_rows_not_truthy (T : Terminal) (color : bool)
      (rows : list VerseRecord) (keywords : option (list string)) :
  truthy_keywords keywords = false ->
  render_rows T keywords color rows = render_rows T None color rows.
Proof.
  intros H. induction rows as [|row rows IH]; simpl; [reflexivity |].
  now rewrite H, IH.
Qed.

(** X11.  Keywords that the filter removes leave no trace in the
    rendering: when every keyword is an operator or begins with [-],
    [render_plain] writes what it writes without keywords, a heading and
    the unchanged text for every row. *)
Theorem render_plain_no_surviving_keyword :
  forall (arrange : list string -> list string) (T : Terminal)
         (rows : list VerseRecord) (keywords : list string) (color : bool),
    lawful arrange ->
    Forall (fun k => survives k = false) keywords ->
    render_plain arrange T rows (Some keywords) color
    = render_plain arrange T rows None color
    /\ render_plain arrange T rows (Some keywords) color
       = (flat_map (fun row => [Secho (heading row) true false color;
                                Echo (text row)]) rows,
          Ok tt).
Proof.
  intros arrange T rows keywords color Harr Hk.
  assert (E : render_plain arrange T rows (Some keywords) color
              = render_plain arrange T rows None color).
  { unfold render_plain.
    destruct (truthy_keywords (Some keywords)) eqn:Ht;
      [| now apply render_rows_not_truthy].
    assert (Hnil : filter_keywords arrange (keywords_list (Some keywords))
                   = []).
    { destruct (filter_keywords arrange (keywords_list (Some keywords)))
        as [|x l] eqn:Hf; [reflexivity |].
      assert (Hx : In x (filter_keywords arrange keywords))
        by (simpl in Hf; rewrite Hf; now left).
      apply (filter_keywords_In arrange keywords x Harr) in Hx as [Hx Hs].
      rewrite (proj1 (Forall_forall _ _) Hk x Hx) in Hs. discriminate. }
    rewrite Hnil. now apply render_rows_not_truthy. }
  split; [exact E |]. rewrite E. unfold render_plain. simpl.
  apply render_rows_no_keywords.
Qed.

Lemma render_plain_no_surviving_keyword_witness :
  render_plain insertion_order xterm [Sample.genesis_1_1]
               (Some ["AND"; "-God"; "NOT"]) true
  = render_plain insertion_order xterm [Sample.genesis_1_1] None true.
Proof.
  refine (proj1 (render_plain_no_surviving_keyword insertion_order xterm
                   [Sample.genesis_1_1] ["AND"; "-God"; "NOT"] true
                   insertion_order_lawful _)).
  repeat constructor.
Defined.

(** ** Highlighting *)

Lemma scan_absent (w : string) (repl : string -> string) (count : Z)
      (s : string) : forall n,
  PyStr.contains w s = false -> Sub.scan w repl count n 0 s = s.
Proof.
  induction s as [|c s IH]; intros n H; rewrite contains_eq in H;
    apply orb_false_elim in H as [Hp Hc]; cbn [Sub.scan].
  - destruct w; [discriminate |]. simpl. now rewrite andb_false_r.
  - rewrite Hp, andb_false_r. f_equal. now apply IH.
Qed.

Lemma may_replace_budget (count n : Z) :
  (0 < count)%Z -> Sub.may_replace count n = true ->
  Z.to_nat (count - n) = S (Z.to_nat (count - (n + 1))).
Proof.
  unfold Sub.may_replace. intros Hc H. apply orb_prop in H as [H | H].
  - apply Z.eqb_eq in H. lia.
  - apply Z.ltb_lt in H. lia.
Qed.

(** Every replacement adds the two markers, and there are at most
    [count - n] more of them. *)
Lemma scan_length (before after w : string) (count : Z) :
  (0 < count)%Z ->
  forall (len : nat) (s : string) (n : Z),
    String.length s <= len ->
    String.length
      (Sub.scan w (fun m => before ++ m ++ after) count n 0 s)
    <= String.length s
       + Z.to_nat (count - n) * (String.length before + String.length after).
Proof.
  intros Hcount. set (m := String.length before + String.length after).
  assert (Hrepl : forall x, String.length (before ++ x ++ after)
                            = String.length x + m).
  { intros x. rewrite !sapp_length. unfold m. lia. }
  clearbody m.
  induction len as [|len IH]; intros s n Hlen.
  - destruct s; [| simpl in Hlen; nia]. cbn [Sub.scan].
    destruct (Sub.may_replace count n) eqn:Hm; cbn [andb];
      [| simpl; nia].
    destruct (PyStr.is_empty w); [| simpl; nia].
    rewrite (may_replace_budget count n Hcount Hm), Hrepl. simpl. nia.
  - destruct s as [|c s'].
    + cbn [Sub.scan].
      destruct (Sub.may_replace count n) eqn:Hm; cbn [andb];
        [| simpl; nia].
      destruct (PyStr.is_empty w); [| simpl; nia].
      rewrite (may_replace_budget count n Hcount Hm), Hrepl. simpl. nia.
    + cbn [Sub.scan]. simpl in Hlen.
      destruct (Sub.may_replace count n) eqn:Hm; cbn [andb].
      * destruct (String.prefix w (String c s')) eqn:Hp.
        -- rewrite (may_replace_budget count n Hcount Hm).
           destruct w as [|d w'].
           ++ cbn [PyStr.is_empty]. rewrite sapp_length, Hrepl.
              cbn [String.length].
              specialize (IH s' (n + 1)%Z ltac:(nia)). simpl. nia.
           ++ apply prefix_iff in Hp as [t Ht]. simpl in Ht.
              injection Ht as -> ->.
              cbn [PyStr.is_empty String.length Nat.sub].
              rewrite Nat.sub_0_r, scan_skip, sapp_length, Hrepl.
              rewrite sapp_length in Hlen.
              specialize (IH t (n + 1)%Z ltac:(nia)).
              cbn [String.length]. rewrite sapp_length. simpl. nia.
        -- specialize (IH s' n ltac:(nia)). cbn [String.length]. nia.
      * specialize (IH s' n ltac:(nia)). cbn [String.length]. nia.
Qed.

(** X12.  On an output that is no terminal both markers are empty, and
    highlighting changes nothing: for keywords that are plain words (not
    empty, no character special to [re]), [colorize_matches] returns the
    text it was given. *)
Theorem colorize_without_markers :
  forall (T : Terminal) (s : string) (keywords : list string),
    red T = "" -> normal T = "" ->
    Forall (fun k => k <> "" /\ Sub.literal k = true) keywords ->
    colorize_matches T s keywords = Ok s.
Proof.
  intros T s keywords Hr Hn Hk. induction Hk as [|k keywords [Hne Hl] _ IH];
    simpl; [reflexivity |].
  now rewrite Hr, Hn, (re_sub_unmarked k s IGNORECASE Hne Hl).
Qed.

Lemma colorize_without_markers_witness :
  colorize_matches no_tty (text Sample.genesis_1_16) ["light"; "God"]
  = Ok (text Sample.genesis_1_16).
Proof.
  apply (colorize_without_markers no_tty (text Sample.genesis_1_16)
           ["light"; "God"] eq_refl eq_refl).
  repeat constructor; discriminate.
Defined.

(** X13.  A keyword that is a plain word and does not occur in the text,
    letter case included, leaves the text as it is. *)
Theorem colorize_absent_keywords :
  forall (T : Terminal) (s : string) (keywords : list string),
    plain_markers T ->
    Forall (fun k => Sub.literal k = true /\ PyStr.contains k s = false)
           keywords ->
    colorize_matches T s keywords = Ok s.
Proof.
  intros T s keywords [Hr Hn] Hk.
  induction Hk as [|k keywords [Hl Ha] _ IH]; simpl; [reflexivity |].
  unfold Sub.re_sub. rewrite (compile_literal k Hl), Hr, Hn. simpl.
  now rewrite scan_absent.
Qed.

Lemma colorize_absent_keywords_witness :
  colorize_matches xterm (text Sample.psalms_97_11) ["light"; "GOD"]
  = Ok (text Sample.psalms_97_11).
Proof.
  apply (colorize_absent_keywords xterm (text Sample.psalms_97_11)
           ["light"; "GOD"]).
  - split; reflexivity.
  - repeat constructor.
Defined.

(** X14.  [colorize_matches] wraps at most two occurrences of each
    keyword: for keywords without characters special to [re], the result
    is longer than the text by at most two pairs of markers for each
    keyword. *)
Theorem colorize_at_most_two :
  forall (T : Terminal) (s : string) (keywords : list string),
    plain_markers T ->
    Forall (fun k => Sub.literal k = true) keywords ->
    exists s',
      colorize_matches T s keywords = Ok s'
      /\ String.length s'
         <= String.length s
            + 2 * List.length keywords
                * (String.length (red T) + String.length (normal T)).
Proof.
  intros T s keywords [Hr Hn] Hk. revert s.
  induction Hk as [|k keywords Hl _ IH]; intros s; simpl.
  - exists s. split; [reflexivity | lia].
  - unfold Sub.re_sub. rewrite (compile_literal k Hl), Hr, Hn. simpl orb.
    cbv iota.
    set (s1 := Sub.scan k (fun m => red T ++ m ++ normal T) IGNORECASE 0 0 s).
    destruct (IH s1) as (s' & Hs' & Hlen). exists s'.
    split; [exact Hs' |].
    assert (H1 : String.length s1
                 <= String.length s
                    + 2 * (String.length (red T) + String.length (normal T))).
    { exact (scan_length (red T) (normal T) k IGNORECASE eq_refl
               (String.length s) s 0%Z (le_n _)). }
    lia.
Qed.

Lemma colorize_at_most_two_witness :
  exists s',
    colorize_matches xterm (text Sample.genesis_1_16) ["light"] = Ok s'
    /\ String.length s'
       <= String.length (text Sample.genesis_1_16)
          + 2 * List.length ["light"]
              * (String.length (red xterm) + String.length (normal xterm)).
Proof.
  apply (colorize_at_most_two xterm (text Sample.genesis_1_16) ["light"]).
  - split; reflexivity.
  - repeat constructor.
Defined.

Lemma repeat_survives (k : string) :
  PyStr.starts Sub.repeat_char k = true -> survives k = true.
Proof.
  destruct k as [|c k]; [discriminate |]. unfold PyStr.starts.
  destruct c as [[] [] [] [] [] [] [] []]; intros H; vm_compute in H;
    try discriminate; reflexivity.
Qed.

Lemma colorize_raises (T : Terminal) (keywords : list string) :
  plain_markers T ->
  Forall (fun k => Sub.literal k = true
                   \/ PyStr.starts Sub.repeat_char k = true) keywords ->
  Exists (fun k => PyStr.starts Sub.repeat_char k = true) keywords ->
  forall s, colorize_matches T s keywords = Raise ReError.
Proof.
  intros [Hr Hn] Hall. induction Hall as [|k keywords Hk _ IH];
    intros Hex s; [inversion Hex |]. simpl. unfold Sub.re_sub, Sub.compile.
  destruct (PyStr.starts Sub.repeat_char k) eqn:Hbad; [reflexivity |].
  destruct Hk as [Hk | Hk]; [| congruence]. rewrite Hk, Hr, Hn. simpl.
  apply IH. inversion Hex; subst; [congruence | assumption].
Qed.

(** X15.  A keyword is handed to [re.sub] as a pattern, unescaped.  When
    the keywords are plain words except for some that begin with [*],
    [+] or [?], and there is at least one of these, [render_plain] raises
    [re.error] at the first row, before it has written anything, in
    whatever order the set of keywords is iterated. *)
Theorem render_plain_unescaped_keyword :
  forall (arrange : list string -> list string) (T : Terminal)
         (row : VerseRecord) (rows : list VerseRecord)
         (keywords : list string) (color : bool),
    lawful arrange -> plain_markers T ->
    Forall (fun k => Sub.literal k = true
                     \/ PyStr.starts Sub.repeat_char k = true) keywords ->
    Exists (fun k => PyStr.starts Sub.repeat_char k = true) keywords ->
    render_plain arrange T (row :: rows) (Some keywords) color
    = ([], Raise ReError).
Proof.
  intros arrange T row rows keywords color Harr HT Hall Hex.
  unfold render_plain.
  assert (Ht : truthy_keywords (Some keywords) = true).
  { destruct keywords; [inversion Hex | reflexivity]. }
  rewrite Ht. cbn [keywords_list].
  set (K := filter_keywords arrange keywords).
  assert (HallK : Forall (fun k => Sub.literal k = true
                                   \/ PyStr.starts Sub.repeat_char k = true)
                         K).
  { apply Forall_forall. intros k Hk.
    apply (filter_keywords_In arrange keywords k Harr) in Hk as [Hk _].
    now apply (proj1 (Forall_forall _ _) Hall). }
  assert (HexK : Exists (fun k => PyStr.starts Sub.repeat_char k = true) K).
  { apply Exists_exists in Hex as (k & Hk & Hbad).
    apply Exists_exists. exists k. split; [| assumption].
    apply (filter_keywords_In arrange keywords k Harr).
    split; [assumption | now apply repeat_survives]. }
  assert (HtK : truthy_keywords (Some K) = true).
  { destruct K; [inversion HexK | reflexivity]. }
  cbn [render_rows]. rewrite HtK. cbn [keywords_list].
  now rewrite (colorize_raises T K HT HallK HexK).
Qed.

Lemma render_plain_unescaped_keyword_witness :
  render_plain (by_hash first_code_mod8) xterm
               [Sample.genesis_1_1; Sample.genesis_3_9]
               (Some ["God"; "*"; "Adam"]) true
  = ([], Raise ReError).
Proof.
  apply (render_plain_unescaped_keyword (by_hash first_code_mod8) xterm).
  - apply by_hash_lawful.
  - split; reflexivity.
  - apply Forall_cons; [left; reflexivity |].
    apply Forall_cons; [right; reflexivity |].
    apply Forall_cons; [left; reflexivity | apply Forall_nil].
  - apply Exists_cons_tl, Exists_cons_hd. reflexivity.
Defined.

(** ** Commands *)

Lemma finish_ext (result : option (outcome (list VerseRecord)))
      (render render' : list VerseRecord -> io) (msg : string) :
  (forall rows, render rows = render' rows) ->
  finish result render msg = finish result render' msg.
Proof.
  intros H. destruct result as [[rows | e |]|]; try reflexivity.
  simpl. now rewrite H.
Qed.

(** X17.  [lookup] on an existing file whose name ends in [json] or
    [sqlite], when the adapter chosen for that name returns [rows]:
    without rows it writes nothing and raises the usage error
    ["<key> not found"] (exit status 2); with rows it ends normally (exit
    status 0), having written, in plain mode, a bold heading and the
    unchanged text for each row and, in JSON mode, the one JSON
    document. *)
Theorem lookup_result_or_usage_error :
  forall (w : World) (filename key output : string)
         (verses rows : list VerseRecord),
    fs w filename = Some verses ->
    ((exists p, filename = p ++ "json")
     /\ lookup_json verses key = Ok rows)
    \/ ((exists p, filename = p ++ "sqlite")
        /\ lookup_sqlite verses key = Ok rows) ->
    (rows = [] ->
     lookup w filename key output
     = ([], Raise (UsageError (key ++ " not found")))
     /\ exit_status (snd (lookup w filename key output)) = Some 2%Z)
    /\ (rows <> [] ->
        exit_status (snd (lookup w filename key output)) = Some 0%Z
        /\ (output = "plain" ->
            lookup w filename key output
            = (flat_map (fun row => [Secho (heading row) true false true;
                                     Echo (text row)]) rows,
               Ok tt))
        /\ (output = "json" ->
            lookup w filename key output = render_json rows)).
Proof.
  intros w filename key output verses rows Hfs Hrows.
  assert (Hsel : (PyStr.endswith filename "json" = true
                  /\ lookup_json verses key = Ok rows)
                 \/ (PyStr.endswith filename "json" = false
                     /\ PyStr.endswith filename "sqlite" = true
                     /\ lookup_sqlite verses key = Ok rows)).
  { destruct Hrows as [[Hn Hr] | [Hn Hr]]; apply endswith_iff in Hn.
    - now left.
    - right. split; [now apply json_not_sqlite | now split]. }
  destruct (lookup_outcome w filename key output verses rows Hfs Hsel)
    as [Hnone Hsome].
  split.
  - intros Hnil. now rewrite (Hnone Hnil).
  - intros Hne. destruct (Hsome Hne) as [Hrun Hexit].
    split; [exact Hexit | split].
    + intros ->. rewrite Hrun. unfold render_per_output, render_plain.
      simpl. apply render_rows_no_keywords.
    + intros ->. rewrite Hrun. reflexivity.
Qed.

Lemma lookup_result_or_usage_error_witness :
  lookup (Sample.world [Sample.genesis_1_1]) "kjv.sqlite" "Exodus 1:1" "json"
  = ([], Raise (UsageError "Exodus 1:1 not found"))
  /\ lookup (Sample.world [Sample.genesis_1_1]) "kjv.sqlite" "Genesis 1:1"
            "json"
     = render_json [Sample.genesis_1_1].
Proof.
  split.
  - refine (proj1 (proj1 (lookup_result_or_usage_error
                            (Sample.world [Sample.genesis_1_1])
                            "kjv.sqlite" "Exodus 1:1" "json"
                            [Sample.genesis_1_1] [] eq_refl _)
                     eq_refl)).
    right. split; [now exists "kjv." | reflexivity].
  - refine (proj2 (proj2 (proj2 (lookup_result_or_usage_error
                                   (Sample.world [Sample.genesis_1_1])
                                   "kjv.sqlite" "Genesis 1:1" "json"
                                   [Sample.genesis_1_1] [Sample.genesis_1_1]
                                   eq_refl _)
                            _))
                  eq_refl).
    + right. split; [now exists "kjv." | reflexivity].
    + discriminate.
Defined.

(** X18.  [search] in an existing flat file: when no record holds every
    word it writes nothing and raises the usage error ["No matches found
    for: <query>"], the query being the arguments joined by blanks (exit
    status 2); when there are records and the output is [json], it prints
    them as the one JSON document and ends normally, whatever the
    keywords are. *)
Theorem search_json_file_outcome :
  forall (w : World) (filename : string) (verses : list VerseRecord)
         (keywords : list string) (output : string),
    (exists p, filename = p ++ "json") ->
    fs w filename = Some verses ->
    (search_json verses (PyStr.join " " keywords) = [] ->
     search w filename keywords output
     = ([], Raise (UsageError ("No matches found for: "
                               ++ PyStr.join " " keywords)))
     /\ exit_status (snd (search w filename keywords output)) = Some 2%Z)
    /\ (search_json verses (PyStr.join " " keywords) <> [] ->
        search w filename keywords "json"
        = render_json (search_json verses (PyStr.join " " keywords))
        /\ exit_status (snd (search w filename keywords "json")) = Some 0%Z).
Proof.
  intros w filename verses keywords output Hj Hfs. apply endswith_iff in Hj.
  unfold search. rewrite !(existing_path_some _ _ _ _ Hfs), Hj. split.
  - intros ->. now rewrite finish_empty.
  - intros Hne. now rewrite finish_found by assumption.
Qed.

Lemma search_json_file_outcome_witness :
  search (Sample.world [Sample.genesis_1_1]) "kjv.json" ["Adam"; "(Eve"]
         "plain"
  = ([], Raise (UsageError "No matches found for: Adam (Eve")).
Proof.
  refine (proj1 (proj1 (search_json_file_outcome
                          (Sample.world [Sample.genesis_1_1])
                          "kjv.json" [Sample.genesis_1_1]
                          ["Adam"; "(Eve"] "plain" _ eq_refl)
                   eq_refl)).
  now exists "kjv.".
Defined.

Lemma render_rows_texts (T : Terminal) (K : list string) (color : bool)
      (rows : list VerseRecord) :
  (forall s, exists s', colorize_matches T s K = Ok s') ->
  exists texts,
    Forall2 (fun row txt => colorize_matches T (text row) K = Ok txt)
            rows texts
    /\ render_rows T (Some K) color rows
       = (flat_map (fun p => [Secho (heading (fst p)) true false color;
                              Echo (snd p)]) (combine rows texts),
          Ok tt).
Proof.
  intros Hok. induction rows as [|row rows (texts & Hall & Hrun)].
  - exists []. split; [constructor | reflexivity].
  - destruct (Hok (text row)) as [txt Htxt]. exists (txt :: texts).
    split; [now constructor |]. cbn [render_rows]. rewrite Hrun.
    destruct K as [|k K]; [| cbn [truthy_keywords truthy_list keywords_list];
                              now rewrite Htxt].
    simpl in Htxt. injection Htxt as <-. reflexivity.
Qed.

(** X19.  [search] in plain mode, in an existing flat file, with words
    that hold no character special to [re]: when the adapter returns
    records, the command ends normally (exit status 0) and has written,
    for each record in turn, its bold heading and then its text as
    [colorize_matches] returns it for the keywords, which were filtered
    twice. *)
Theorem search_plain_words :
  forall (w : World) (filename : string) (verses : list VerseRecord)
         (keywords : list string) (rows : list VerseRecord),
    (exists p, filename = p ++ "json") ->
    fs w filename = Some verses ->
    search_json verses (PyStr.join " " keywords) = rows ->
    rows <> [] ->
    lawful (hash_order w) -> plain_markers (term w) ->
    Forall (fun k => Sub.literal k = true) (flat_map PyStr.split keywords) ->
    let K := filter_keywords (hash_order w)
               (filter_keywords (hash_order w)
                  (PyStr.split (PyStr.join " " keywords))) in
    exists texts,
      Forall2 (fun row txt => colorize_matches (term w) (text row) K = Ok txt)
              rows texts
      /\ search w filename keywords "plain"
         = (flat_map (fun p => [Secho (heading (fst p)) true false true;
                                Echo (snd p)]) (combine rows texts),
            Ok tt)
      /\ exit_status (snd (search w filename keywords "plain")) = Some 0%Z.
Proof.
  intros w filename verses keywords rows Hj Hfs Hrows Hne Harr HT Hlit K.
  apply endswith_iff in Hj.
  assert (HK : Forall (fun k => Sub.literal k = true) K).
  { apply Forall_forall. intros k Hk. unfold K in Hk.
    apply (filter_keywords_In (hash_order w) _ k Harr) in Hk as [Hk _].
    apply (filter_keywords_In (hash_order w) _ k Harr) in Hk as [Hk _].
    rewrite split_join_flat in Hk.
    now apply (proj1 (Forall_forall _ _) Hlit). }
  destruct (render_rows_texts (term w) K true rows
              (colorize_matches_literal (term w) K HT HK))
    as (texts & Hall & Hrun).
  exists texts. split; [exact Hall |].
  assert (E : search w filename keywords "plain"
              = (flat_map (fun p => [Secho (heading (fst p)) true false true;
                                     Echo (snd p)]) (combine rows texts),
                 Ok tt)).
  { unfold search.
    rewrite (existing_path_some _ _ _ _ Hfs), Hj, Hrows, finish_found
      by assumption.
    unfold render_per_output, render_plain. cbn [String.eqb Ascii.eqb].
    simpl (("plain" =? "plain")%string). cbv iota.
    cbn [keywords_list].
    destruct (truthy_keywords
                (Some (filter_keywords (hash_order w)
                         (PyStr.split (PyStr.join " " keywords))))) eqn:Ht.
    - exact Hrun.
    - assert (Hnil : filter_keywords (hash_order w)
                       (PyStr.split (PyStr.join " " keywords)) = []).
      { destruct (filter_keywords (hash_order w)
                    (PyStr.split (PyStr.join " " keywords)));
          [reflexivity | discriminate]. }
      assert (HKnil : K = []).
      { unfold K. rewrite Hnil.
        destruct (filter_keywords (hash_order w) []) as [|x l] eqn:Hf;
          [reflexivity |].
        assert (Hx : In x (filter_keywords (hash_order w) []))
          by (rewrite Hf; now left).
        apply (filter_keywords_In (hash_order w) [] x Harr) in Hx as [[] _]. }
      rewrite Hnil. rewrite HKnil in Hrun. exact Hrun. }
  split; [exact E | now rewrite E].
Qed.

Lemma search_plain_words_witness :
  exists texts,
    Forall2 (fun row txt =>
               colorize_matches xterm (text row) ["earth"; "the"] = Ok txt)
            [Sample.genesis_1_1; Sample.genesis_1_2] texts
    /\ search (Sample.world [Sample.genesis_1_1; Sample.genesis_1_2;
                             Sample.genesis_3_9])
              "kjv.json" ["earth the"; "earth"] "plain"
       = (flat_map (fun p => [Secho (heading (fst p)) true false true;
                              Echo (snd p)])
                   (combine [Sample.genesis_1_1; Sample.genesis_1_2] texts),
          Ok tt)
    /\ exit_status
         (snd (search (Sample.world [Sample.genesis_1_1; Sample.genesis_1_2;
                                     Sample.genesis_3_9])
                      "kjv.json" ["earth the"; "earth"] "plain"))
       = Some 0%Z.
Proof.
  apply (search_plain_words
           (Sample.world [Sample.genesis_1_1; Sample.genesis_1_2;
                          Sample.genesis_3_9])
           "kjv.json"
           [Sample.genesis_1_1; Sample.genesis_1_2; Sample.genesis_3_9]
           ["earth the"; "earth"]
           [Sample.genesis_1_1; Sample.genesis_1_2]).
  - now exists "kjv.".
  - reflexivity.
  - reflexivity.
  - discriminate.
  - exact insertion_order_lawful.
  - split; reflexivity.
  - repeat constructor.
Defined.

(** X20.  [--output] is not checked.  With a value other than [plain]
    and [json], a lookup or a flat-file search in an existing file that
    has records writes nothing at all and still ends normally, with exit
    status 0. *)
Theorem unsupported_output_is_silent :
  forall (w : World) (filename key output : string)
         (keywords : list string) (verses rows : list VerseRecord),
    output <> "plain" -> output <> "json" ->
    (exists p, filename = p ++ "json") ->
    fs w filename = Some verses ->
    (lookup_json verses key = Ok rows -> rows <> [] ->
     lookup w filename key output = ([], Ok tt))
    /\ (search_json verses (PyStr.join " " keywords) <> [] ->
        search w filename keywords output = ([], Ok tt)).
Proof.
  intros w filename key output keywords verses rows Hp Hjs Hj Hfs.
  apply endswith_iff in Hj. apply String.eqb_neq in Hp, Hjs.
  unfold lookup, search. rewrite !(existing_path_some _ _ _ _ Hfs), Hj.
  split.
  - intros -> Hne. rewrite finish_found by assumption.
    unfold render_per_output. now rewrite Hp, Hjs.
  - intros Hne. rewrite finish_found by assumption.
    unfold render_per_output. now rewrite Hp, Hjs.
Qed.

Lemma unsupported_output_is_silent_witness :
  lookup (Sample.world [Sample.genesis_1_1]) "kjv.json" "Genesis 1:1" "xml"
  = ([], Ok tt).
Proof.
  refine (proj1 (unsupported_output_is_silent
                   (Sample.world [Sample.genesis_1_1])
                   "kjv.json" "Genesis 1:1" "xml" []
                   [Sample.genesis_1_1] [Sample.genesis_1_1] _ _ _ eq_refl)
                eq_refl _);
    try discriminate.
  now exists "kjv.".
Defined.

(** X21.  What [lookup] does depends on what the path holds alone, not on
    the terminal, the hash seed or the full-text index of the process;
    and the JSON output of [search] depends on what the path holds and
    on the index alone: the terminal and the hash seed only enter the
    highlighting of the plain output. *)
Theorem output_independent_of_terminal :
  forall (w w' : World) (filename key output : string)
         (keywords : list string),
    fs w filename = fs w' filename ->
    lookup w filename key output = lookup w' filename key output
    /\ (fts w = fts w' ->
        search w filename keywords "json" = search w' filename keywords "json").
Proof.
  intros w w' filename key output keywords Hfs. split.
  - unfold lookup, existing_path. rewrite Hfs.
    destruct (fs w' filename) as [verses|]; [| reflexivity].
    apply finish_ext. intros rows.
    unfold render_per_output, render_plain. simpl.
    now rewrite !render_rows_no_keywords.
  - intros Hfts. unfold search, existing_path. rewrite Hfs, Hfts.
    destruct (fs w' filename) as [verses|]; [| reflexivity].
    now apply finish_ext.
Qed.

Lemma output_independent_of_terminal_witness :
  lookup (Sample.world [Sample.genesis_1_1]) "kjv.json" "Genesis 1" "plain"
  = lookup {| fs := fun _ => Some [Sample.genesis_1_1];
              fts := fun _ rows => Ok rows;
              hash_order := by_hash first_code_mod8;
              term := no_tty |}
           "kjv.json" "Genesis 1" "plain".
Proof.
  apply (proj1 (output_independent_of_terminal
                  (Sample.world [Sample.genesis_1_1])
                  {| fs := fun _ => Some [Sample.genesis_1_1];
                     fts := fun _ rows => Ok rows;
                     hash_order := by_hash first_code_mod8;
                     term := no_tty |}
                  "kjv.json" "Genesis 1" "plain" [] eq_refl)).
Defined.

(** X22.  An empty key, or a key that begins with a colon, makes [lookup]
    on an existing [json] or [sqlite] file end in a [TypeError] that
    nobody handles (exit status 1), with nothing written, where a key
    that finds nothing ends in the usage error: [split_key] returned
    [None] and the adapter unpacks it into three names. *)
Theorem lookup_unparsed_key :
  forall (w : World) (filename key output : string)
         (verses : list VerseRecord),
    (exists p, filename = p ++ "json")
    \/ (exists p, filename = p ++ "sqlite") ->
    fs w filename = Some verses ->
    key = "" \/ (exists s, key = String ":" s) ->
    lookup w filename key output = ([], Raise TypeError)
    /\ exit_status (snd (lookup w filename key output)) = Some 1%Z.
Proof.
  intros w filename key output verses Hname Hfs Hkey. unfold lookup.
  rewrite (existing_path_some _ _ _ _ Hfs).
  apply split_key_none in Hkey.
  destruct Hname as [H | H]; apply endswith_iff in H.
  - rewrite H. unfold lookup_json. now rewrite Hkey.
  - rewrite (json_not_sqlite filename H), H. unfold lookup_sqlite.
    now rewrite Hkey.
Qed.

Lemma lookup_unparsed_key_witness :
  lookup (Sample.world [Sample.genesis_1_1]) "kjv.sqlite" ":1" "plain"
  = ([], Raise TypeError)
  /\ exit_status
       (snd (lookup (Sample.world [Sample.genesis_1_1]) "kjv.sqlite" ":1"
                    "plain"))
     = Some 1%Z.
Proof.
  apply (lookup_unparsed_key (Sample.world [Sample.genesis_1_1])
           "kjv.sqlite" ":1" "plain" [Sample.genesis_1_1]).
  - right. now exists "kjv.".
  - reflexivity.
  - right. now exists "1".
Defined.

(** ** Logging *)

(** X23.  [cli] sets one of three levels, [WARNING], [INFO] or [DEBUG]:
    [WARNING] exactly without a [-v], [DEBUG] exactly from two on; more
    [-v] flags never raise the level, so no message shown with fewer
    flags is hidden with more; the format does not depend on the
    verbosity. *)
Theorem cli_levels :
  forall verbose verbose' : Z,
    (level (cli verbose) = WARNING <-> (verbose <= 0)%Z)
    /\ (level (cli verbose) = INFO <-> verbose = 1%Z)
    /\ (level (cli verbose) = DEBUG <-> (2 <= verbose)%Z)
    /\ ((verbose <= verbose')%Z ->
        (level (cli verbose') <= level (cli verbose))%Z)
    /\ format (cli verbose) = format (cli verbose').
Proof.
  intros verbose verbose'. unfold cli, DEBUG, INFO, WARNING. simpl.
  destruct (Z.geb_spec verbose 2), (Z.eqb_spec verbose 1),
    (Z.geb_spec verbose' 2), (Z.eqb_spec verbose' 1);
    repeat split; intros; try lia; try discriminate.
Qed.
